(** * fix_clipboard.py: the clipboard monitor, embedded and verified

    The script polls the macOS general pasteboard, recognises the
    "image plus plain text, not a file copy" pattern and replaces the
    pasteboard content by the image alone.

    The embedding follows the source function by function:
    [get_clipboard_contents], [has_image_and_text], [copy_image_only],
    [main] and the entry block.  The pasteboard, the logger and
    [time.sleep] are external to the script; they are given here as an
    in-memory store driven by an explicit schedule of environment events
    (other writers, access errors, the stop signal), so that every run
    of the script is a function from an initial state to a final state
    and a chronological trace of what the script did. *)

From Stdlib Require Import List String Ascii Bool Lia PrimFloat.
From Stdlib.Strings Require Import Byte.
Import ListNotations.
Local Open Scope string_scope.
Local Open Scope list_scope.

(** ** AppKit constants

    The pasteboard type identifiers are the uniform type identifiers
    that AppKit binds to these names (the docstring of
    [get_clipboard_contents] quotes two of them). *)

Module AppKit.

Definition NSPasteboardTypeTIFF : string := "public.tiff".
Definition NSPasteboardTypePNG : string := "public.png".
Definition NSPasteboardTypeString : string := "public.utf8-plain-text".
Definition NSPasteboardTypeFileURL : string := "public.file-url".

End AppKit.
Import AppKit.

(** Line 31. *)
Definition DEFAULT_POLL_INTERVAL : float := 1%float.

(** ** The pasteboard

    The general pasteboard is the collaborator of the script: it
    answers the current type identifiers, the plain text, the bytes
    stored under one identifier, and takes clear-all and write-bytes
    under one identifier.  Here it is an ordered list of entries, one
    per type identifier; [types()] reports the identifiers in order,
    so order is kept. *)

Definition NSData := list byte.
Definition Pasteboard := list (string * NSData).

Fixpoint lookup (t : string) (pb : Pasteboard) : option NSData :=
  match pb with
  | [] => None
  | (t', d) :: rest => if String.eqb t t' then Some d else lookup t rest
  end.

Fixpoint store (t : string) (d : NSData) (pb : Pasteboard) : Pasteboard :=
  match pb with
  | [] => [(t, d)]
  | (t', d') :: rest =>
      if String.eqb t t' then (t, d) :: rest else (t', d') :: store t d rest
  end.

Definition identifiers (pb : Pasteboard) : list string := map fst pb.

Definition text_of (pb : Pasteboard) (t : string) : option string :=
  option_map string_of_list_byte (lookup t pb).

(** ** Environment, trace and state *)

(** What the outside world does at the moment the script makes a
    pasteboard call: nothing, make the call fail, or (another writer)
    replace the whole content just before the call is served. *)
Inductive EnvEvent : Type :=
| Quiet
| Fault (reason : string)
| Rewrite (content : Pasteboard).

Inductive PbCall : Type :=
| CallGeneralPasteboard
| CallTypes
| CallStringForType (t : string)
| CallDataForType (t : string)
| CallClearContents
| CallSetDataForType (d : NSData) (t : string).

Inductive Level : Type := DEBUG | INFO | ERROR.

(** One constructor per log line of the script, with the values its
    f-string interpolates. *)
Inductive Message : Type :=
| MsgAccessError (e : string)                       (* line 68 *)
| MsgClipboardCheck (has_image has_text has_file : bool)  (* line 103 *)
| MsgRecopied                                       (* line 147 *)
| MsgNoImageData                                    (* line 151 *)
| MsgModifyError (e : string)                       (* line 155 *)
| MsgRunning (poll_interval : float)                (* line 167 *)
| MsgTypes (types : option (list string))           (* line 190 *)
| MsgPlainText (text : option string)               (* line 192 *)
| MsgDetected                                       (* line 196 *)
| MsgIgnoring                                       (* line 201 *)
| MsgStopping                                       (* line 214 *)
| MsgUnexpected (e : string)                        (* line 218 *)
| MsgDebugEnabled.                                  (* line 252 *)

(** What the script does, in the order it does it. *)
Inductive Action : Type :=
| Called (c : PbCall)
| Logged (lvl : Level) (msg : Message)
| Printed (line : string)
| Slept (secs : float).

Record State : Type := mkState {
  pasteboard : Pasteboard;          (* the shared store *)
  env : list EnvEvent;              (* one event per pasteboard call to come *)
  signals : list bool;              (* per sleep to come: does Ctrl+C arrive *)
  debug_enabled : bool;             (* logger level is DEBUG *)
  trace : list Action;              (* chronological *)
  last_types : option (list string);   (* locals of main, lines 171-172 *)
  last_plain_text : option string
}.

Definition emit (a : Action) (s : State) : State :=
  mkState (pasteboard s) (env s) (signals s) (debug_enabled s)
          (trace s ++ [a]) (last_types s) (last_plain_text s).

Definition with_world (pb : Pasteboard) (e : list EnvEvent) (s : State) : State :=
  mkState pb e (signals s) (debug_enabled s)
          (trace s) (last_types s) (last_plain_text s).

Definition with_signals (sg : list bool) (s : State) : State :=
  mkState (pasteboard s) (env s) sg (debug_enabled s)
          (trace s) (last_types s) (last_plain_text s).

Definition with_debug (b : bool) (s : State) : State :=
  mkState (pasteboard s) (env s) (signals s) b
          (trace s) (last_types s) (last_plain_text s).

Definition with_last (ty : option (list string)) (tx : option string)
  (s : State) : State :=
  mkState (pasteboard s) (env s) (signals s) (debug_enabled s)
          (trace s) ty tx.

(** ** A state and exception monad *)

Inductive exn : Type :=
| Exception (what : string)
| KeyboardInterrupt.

Inductive Outcome (A : Type) : Type :=
| Return (a : A)
| Raise (e : exn).
Arguments Return {A} a.
Arguments Raise {A} e.

Definition M (A : Type) : Type := State -> Outcome A * State.

Definition ret {A} (a : A) : M A := fun s => (Return a, s).

Definition raise {A} (e : exn) : M A := fun s => (Raise e, s).

Definition bind {A B} (c : M A) (k : A -> M B) : M B :=
  fun s =>
    match c s with
    | (Return a, s') => k a s'
    | (Raise e, s') => (Raise e, s')
    end.

Declare Scope py_scope.
Delimit Scope py_scope with py.
Notation "x <- c ;; k" := (bind c (fun x => k))
  (at level 61, c at next level, right associativity) : py_scope.
Notation "' p <- c ;; k" := (bind c (fun x => match x with p => k end))
  (at level 61, p pattern, c at next level, right associativity) : py_scope.
Notation "c ;; k" := (bind c (fun _ => k))
  (at level 61, right associativity) : py_scope.
Local Open Scope py_scope.

(** [try: body  except Exception as e: handler e].  A
    [KeyboardInterrupt] is not an [Exception] and passes through. *)
Definition try_except_Exception {A} (body : M A) (handler : string -> M A)
  : M A :=
  fun s =>
    match body s with
    | (Raise (Exception e), s') => handler e s'
    | r => r
    end.

(** [try: body  except KeyboardInterrupt: h1  except Exception as e: h2 e]. *)
Definition try_except {A} (body : M A) (on_interrupt : M A)
  (on_exception : string -> M A) : M A :=
  fun s =>
    match body s with
    | (Return a, s') => (Return a, s')
    | (Raise KeyboardInterrupt, s') => on_interrupt s'
    | (Raise (Exception e), s') => on_exception e s'
    end.

Fixpoint for_each {A} (l : list A) (body : A -> M unit) : M unit :=
  match l with
  | [] => ret tt
  | x :: rest => body x ;; for_each rest body
  end.

(** ** The external calls *)

(** A pasteboard call: it is recorded, the environment takes its turn,
    and then the call is served on the current content. *)
Definition external {A} (c : PbCall) (serve : Pasteboard -> A * Pasteboard)
  : M A :=
  fun s =>
    let s1 := emit (Called c) s in
    match env s1 with
    | [] =>
        let (a, pb') := serve (pasteboard s1) in
        (Return a, with_world pb' [] s1)
    | Quiet :: rest =>
        let (a, pb') := serve (pasteboard s1) in
        (Return a, with_world pb' rest s1)
    | Fault why :: rest =>
        (Raise (Exception why), with_world (pasteboard s1) rest s1)
    | Rewrite content :: rest =>
        let (a, pb') := serve content in
        (Return a, with_world pb' rest s1)
    end.

Inductive NSPasteboard : Type := TheGeneralPasteboard.

Definition generalPasteboard : M NSPasteboard :=
  external CallGeneralPasteboard (fun pb => (TheGeneralPasteboard, pb)).

Definition types (_ : NSPasteboard) : M (list string) :=
  external CallTypes (fun pb => (identifiers pb, pb)).

Definition stringForType_ (_ : NSPasteboard) (t : string) : M (option string) :=
  external (CallStringForType t) (fun pb => (text_of pb t, pb)).

Definition dataForType_ (_ : NSPasteboard) (t : string) : M (option NSData) :=
  external (CallDataForType t) (fun pb => (lookup t pb, pb)).

Definition clearContents (_ : NSPasteboard) : M unit :=
  external CallClearContents (fun _ => (tt, [])).

(** A write: like any call it can fail; and when another writer has
    taken the pasteboard since the script cleared it (the script only
    ever writes right after its own [clearContents], so this is another
    writer showing up at the write itself) the write is refused: nothing
    is stored, the other writer's content stays and the call answers
    [refused]. *)
Definition external_write {A} (c : PbCall)
  (serve : Pasteboard -> A * Pasteboard) (refused : A) : M A :=
  fun s =>
    let s1 := emit (Called c) s in
    match env s1 with
    | [] =>
        let (a, pb') := serve (pasteboard s1) in
        (Return a, with_world pb' [] s1)
    | Quiet :: rest =>
        let (a, pb') := serve (pasteboard s1) in
        (Return a, with_world pb' rest s1)
    | Fault why :: rest =>
        (Raise (Exception why), with_world (pasteboard s1) rest s1)
    | Rewrite content :: rest =>
        (Return refused, with_world content rest s1)
    end.

(** [setData:forType:] answers YES when the data was written and NO,
    with nothing written, when ownership of the pasteboard has changed. *)
Definition setData_forType_ (_ : NSPasteboard) (d : NSData) (t : string)
  : M bool :=
  external_write (CallSetDataForType d t) (fun pb => (true, store t d pb)) false.

(** The logger: INFO and ERROR records are always emitted, DEBUG
    records only once the level has been lowered (line 251). *)
Definition log_info (msg : Message) : M unit :=
  fun s => (Return tt, emit (Logged INFO msg) s).

Definition log_error (msg : Message) : M unit :=
  fun s => (Return tt, emit (Logged ERROR msg) s).

Definition log_debug (msg : Message) : M unit :=
  fun s => (Return tt, if debug_enabled s then emit (Logged DEBUG msg) s else s).

Definition log_isEnabledFor_DEBUG : M bool :=
  fun s => (Return (debug_enabled s), s).

Definition log_setLevel_DEBUG : M unit :=
  fun s => (Return tt, with_debug true s).

Definition print (line : string) : M unit :=
  fun s => (Return tt, emit (Printed line) s).

(** [time.sleep(secs)] converts the duration to a count of nanoseconds
    before it waits: NaN is refused with ValueError, a duration whose
    nanoseconds do not fit 64 bits (beyond about 9.22e9 seconds either
    way, infinities included) with OverflowError, and any other negative
    duration with ValueError.  The answer is the text of the exception
    (for the overflow, as CPython 3.8 to 3.12 word it), or [None] when
    the duration is accepted. *)
Definition sleep_rejection (secs : float) : option string :=
  if is_nan secs then
    Some "Invalid value NaN (not a number)"
  else if negb ((-0x1p63 <=? secs * 1e9)%float && (secs * 1e9 <=? 0x1p63)%float)
  then Some "timestamp too large to convert to C _PyTime_t"
  else if (secs <? 0)%float then
    Some "sleep length must be non-negative"
  else None.

(** An accepted duration is waited for, and the wait is where the stop
    signal is delivered. *)
Definition time_sleep (secs : float) : M unit :=
  fun s =>
    match sleep_rejection secs with
    | Some what => raise (Exception what) s
    | None =>
        let s1 := emit (Slept secs) s in
        match signals s1 with
        | [] => (Return tt, s1)
        | false :: rest => (Return tt, with_signals rest s1)
        | true :: rest => (Raise KeyboardInterrupt, with_signals rest s1)
        end
    end.

(** ** The script *)

(** Lines 45-69. *)
Definition get_clipboard_contents
  : M (option (list string) * option string) :=
  try_except_Exception
    (pb <- generalPasteboard ;;
     types <- types pb ;;
     plain_text_content <- stringForType_ pb NSPasteboardTypeString ;;
     ret (Some types, plain_text_content))
    (fun e =>
       log_error (MsgAccessError e) ;;
       ret (None, None)).

(** [t in types]. *)
Definition contains (types : list string) (t : string) : bool :=
  existsb (String.eqb t) types.

(** Lines 89, 94 and 100: the three locals of [has_image_and_text]. *)
Definition has_image (types : list string) : bool :=
  existsb (contains types) [NSPasteboardTypeTIFF; NSPasteboardTypePNG].

Definition has_text (types : list string) : bool :=
  contains types NSPasteboardTypeString.

Definition has_file (types : list string) : bool :=
  existsb (contains types) [NSPasteboardTypeFileURL; "public.file-path"].

(** Lines 71-106.  [not types] holds of [None] and of the empty list. *)
Definition has_image_and_text (types : option (list string)) : M bool :=
  match types with
  | None => ret false
  | Some [] => ret false
  | Some types =>
      log_debug (MsgClipboardCheck (has_image types) (has_text types)
                                   (has_file types)) ;;
      ret (has_image types && has_text types && negb (has_file types))
  end.

(** Truth value of what [dataForType_] hands back, as [if image_data]
    and [if not image_data] take it: [None] is false, and so is a
    payload of length zero (the data object answers [len]). *)
Definition truthy (image_data : option NSData) : bool :=
  match image_data with
  | Some (_ :: _) => true
  | _ => false
  end.

(** Lines 108-156. *)
Definition copy_image_only : M bool :=
  try_except_Exception
    (pb <- generalPasteboard ;;
     image_data <- dataForType_ pb NSPasteboardTypeTIFF ;;
     let image_type := NSPasteboardTypeTIFF in
     '(image_data, image_type) <-
        (if negb (truthy image_data) then
           image_data <- dataForType_ pb NSPasteboardTypePNG ;;
           ret (image_data, NSPasteboardTypePNG)
         else ret (image_data, image_type)) ;;
     match image_data with
     | Some (b :: bs) =>
         let data_to_write := [(image_type, b :: bs)] in
         clearContents pb ;;
         for_each data_to_write
           (fun '(type_str, data) =>
              _ <- setData_forType_ pb data type_str ;;
              ret tt) ;;
         log_info MsgRecopied ;;
         ret true
     | _ =>
         log_debug MsgNoImageData ;;
         ret false
     end)
    (fun e =>
       log_error (MsgModifyError e) ;;
       ret false).

(** [==] on the two components of a snapshot. *)
Fixpoint list_eqb (l1 l2 : list string) : bool :=
  match l1, l2 with
  | [], [] => true
  | x :: r1, y :: r2 => String.eqb x y && list_eqb r1 r2
  | _, _ => false
  end.

Definition types_eqb (a b : option (list string)) : bool :=
  match a, b with
  | None, None => true
  | Some l1, Some l2 => list_eqb l1 l2
  | _, _ => false
  end.

Definition text_eqb (a b : option string) : bool :=
  match a, b with
  | None, None => true
  | Some x, Some y => String.eqb x y
  | _, _ => false
  end.

Definition is_not_None {A} (x : option A) : bool :=
  match x with Some _ => true | None => false end.

Definition set_last (ty : option (list string)) (tx : option string) : M unit :=
  fun s => (Return tt, with_last ty tx s).

(** Line 189: a newline, then the separator. *)
Definition separator : string :=
  String (ascii_of_nat 10) "--- Clipboard Changed ---".

(** Lines 177-210: the body of the [try] inside [while True]. *)
Definition loop_body (poll_interval : float) : M unit :=
  '(current_types, current_plain_text) <- get_clipboard_contents ;;
  clipboard_changed <-
    (fun s => (Return (negb (types_eqb current_types (last_types s))
                       || negb (text_eqb current_plain_text (last_plain_text s))),
               s)) ;;
  (if clipboard_changed && is_not_None current_types then
     dbg <- log_isEnabledFor_DEBUG ;;
     (if dbg then print separator else ret tt) ;;
     log_debug (MsgTypes current_types) ;;
     log_debug (MsgPlainText current_plain_text) ;;
     matched <- has_image_and_text current_types ;;
     if matched then
       log_info MsgDetected ;;
       _ <- copy_image_only ;;
       ret tt
     else
       log_debug MsgIgnoring
   else ret tt) ;;
  (if is_not_None current_types then
     set_last current_types current_plain_text
   else ret tt) ;;
  time_sleep poll_interval.

Inductive Status : Type :=
| Stopped      (* the loop was left through [break] *)
| Running.     (* the iterations asked for are done, the loop goes on *)

(** Lines 175-220: [while True], unrolled [n] times. *)
Fixpoint monitor (n : nat) (poll_interval : float) : M Status :=
  match n with
  | O => ret Running
  | S n' =>
      again <-
        try_except
          (loop_body poll_interval ;; ret true)
          (log_info MsgStopping ;; ret false)
          (fun e =>
             log_error (MsgUnexpected e) ;;
             time_sleep (poll_interval * 5)%float ;;
             ret true) ;;
      if again then monitor n' poll_interval else ret Stopped
  end.

(** Lines 160-220. *)
Definition main (n : nat) (poll_interval : float) : M Status :=
  log_info (MsgRunning poll_interval) ;;
  set_last None None ;;
  monitor n poll_interval.

(** The command line after tokenising: each [-i]/[--interval] value has
    been through [float], which accepts every float, signed or zero. *)
Inductive Arg : Type :=
| ArgDebug
| ArgInterval (value : float).

Record Namespace : Type := mkNamespace {
  debug : bool;
  interval : float
}.

(** Lines 228-247: both options are plain stores, the last one wins. *)
Definition parse_args (argv : list Arg) : Namespace :=
  fold_left
    (fun ns a =>
       match a with
       | ArgDebug => mkNamespace true (interval ns)
       | ArgInterval v => mkNamespace (debug ns) v
       end)
    argv (mkNamespace false DEFAULT_POLL_INTERVAL).

(** Lines 226-255. *)
Definition script (n : nat) (argv : list Arg) : M Status :=
  let args := parse_args argv in
  (if debug args then
     log_setLevel_DEBUG ;;
     log_debug MsgDebugEnabled
   else ret tt) ;;
  main n (interval args).

(** A freshly started process. *)
Definition boot (pb : Pasteboard) (e : list EnvEvent) (sg : list bool) : State :=
  mkState pb e sg false [] None None.

(** ** Observations on traces *)

Definition is_detected (a : Action) : bool :=
  match a with
  | Logged INFO MsgDetected => true
  | _ => false
  end.

(** Number of times the corrector has been invoked: line 196 is logged
    at INFO immediately before each call of [copy_image_only], and
    nowhere else. *)
Definition fix_attempts (t : list Action) : nat :=
  List.length (filter is_detected t).

Definition is_mutation (a : Action) : bool :=
  match a with
  | Called CallClearContents => true
  | Called (CallSetDataForType _ _) => true
  | _ => false
  end.

Definition mutations (t : list Action) : list Action := filter is_mutation t.

Definition is_extraction (a : Action) : bool :=
  match a with
  | Called (CallDataForType _) => true
  | _ => false
  end.

Definition extractions (t : list Action) : list Action := filter is_extraction t.

Definition is_sleep (a : Action) : bool :=
  match a with
  | Slept _ => true
  | _ => false
  end.

Definition sleeps (t : list Action) : list Action := filter is_sleep t.

Definition is_handle (a : Action) : bool :=
  match a with
  | Called CallGeneralPasteboard => true
  | _ => false
  end.

(** The requests for the general pasteboard.  [get_clipboard_contents]
    makes one each time it runs (line 59) and so does [copy_image_only]
    (line 119), whatever happens next; nothing else makes any.  So the
    requests added by a tick are one for its read and one for each run
    of the corrector. *)
Definition handles (t : list Action) : list Action := filter is_handle t.

Definition result {A} (r : Outcome A * State) : Outcome A := fst r.
Definition final {A} (r : Outcome A * State) : State := snd r.

(** The value [has_image_and_text] computes, without the logging. *)
Definition matches_pattern (types : option (list string)) : bool :=
  match types with
  | Some l => has_image l && has_text l && negb (has_file l)
  | None => false
  end.

(** Whether a tick that reads [(ct, cp)] in state [s] goes on to call
    the corrector: lines 183, 186 and 195. *)
Definition fires (s : State) (ct : option (list string)) (cp : option string)
  : bool :=
  (negb (types_eqb ct (last_types s)) || negb (text_eqb cp (last_plain_text s)))
  && is_not_None ct && matches_pattern ct.

(** What a read of an undisturbed pasteboard reports. *)
Definition snapshot_of (pb : Pasteboard) : option (list string) * option string :=
  (Some (identifiers pb), text_of pb NSPasteboardTypeString).

(** The locals of [main] as a snapshot. *)
Definition last_snapshot (s : State) : option (list string) * option string :=
  (last_types s, last_plain_text s).

(** [c] adds no action selected by [P] to the trace, leaves the locals
    of [main] and the logger level alone, and is never ended by the
    stop signal. *)
Definition silent (P : Action -> bool) {A} (c : M A) : Prop :=
  forall s,
    filter P (trace (final (c s))) = filter P (trace s) /\
    last_types (final (c s)) = last_types s /\
    last_plain_text (final (c s)) = last_plain_text s /\
    debug_enabled (final (c s)) = debug_enabled s /\
    result (c s) <> Raise KeyboardInterrupt.

Definition nothing : Action -> bool := fun _ => false.

(** States from which no tick can trigger the corrector as long as
    nobody else touches the pasteboard: either the content is the one
    already recorded, or it does not match the pattern. *)
Definition settled (s : State) : Prop :=
  env s = [] /\
  (snapshot_of (pasteboard s) = last_snapshot s \/
   matches_pattern (Some (identifiers (pasteboard s))) = false).

(** [s'] is [s] up to sleeping and logging lines other than line 196. *)
Definition same_core (s s' : State) : Prop :=
  pasteboard s' = pasteboard s /\
  env s' = env s /\
  last_snapshot s' = last_snapshot s /\
  fix_attempts (trace s') = fix_attempts (trace s) /\
  mutations (trace s') = mutations (trace s) /\
  extractions (trace s') = extractions (trace s) /\
  handles (trace s') = handles (trace s).

(** Whether one of the first three pasteboard calls to come fails. *)
Definition is_fault (e : EnvEvent) : bool :=
  match e with
  | Fault _ => true
  | _ => false
  end.

Definition read_faults (s : State) : bool :=
  existsb is_fault (firstn 3 (env s)).

(** What an undisturbed pasteboard holds once [copy_image_only] has
    run on it: the accepted image alone, or the content as it was when
    neither identifier gives image data. *)
Definition corrected (pb : Pasteboard) : Pasteboard :=
  match lookup NSPasteboardTypeTIFF pb with
  | Some (b :: bs) => [(NSPasteboardTypeTIFF, b :: bs)]
  | _ =>
      match lookup NSPasteboardTypePNG pb with
      | Some (b :: bs) => [(NSPasteboardTypePNG, b :: bs)]
      | _ => pb
      end
  end.

(** The extraction calls and the clear and write calls of one run of
    [copy_image_only] on an undisturbed pasteboard. *)
Definition extraction_calls (pb : Pasteboard) : list Action :=
  if truthy (lookup NSPasteboardTypeTIFF pb)
  then [Called (CallDataForType NSPasteboardTypeTIFF)]
  else [Called (CallDataForType NSPasteboardTypeTIFF);
        Called (CallDataForType NSPasteboardTypePNG)].

Definition mutation_calls (pb : Pasteboard) : list Action :=
  match lookup NSPasteboardTypeTIFF pb with
  | Some (b :: bs) =>
      [Called CallClearContents;
       Called (CallSetDataForType (b :: bs) NSPasteboardTypeTIFF)]
  | _ =>
      match lookup NSPasteboardTypePNG pb with
      | Some (b :: bs) =>
          [Called CallClearContents;
           Called (CallSetDataForType (b :: bs) NSPasteboardTypePNG)]
      | _ => []
      end
  end.

(** ** Sample data *)

Definition tiff_bytes : NSData := [x49; x49; x2a; x00].
Definition png_bytes : NSData := [x89; x50; x4e; x47].
Definition url_bytes : NSData := list_byte_of_string "https://example.com".

(** What Safari leaves behind after "Copy Image". *)
Definition safari_copy : Pasteboard :=
  [(NSPasteboardTypeTIFF, tiff_bytes); (NSPasteboardTypeString, url_bytes)].

(** The same with a PNG rendition only. *)
Definition png_copy : Pasteboard :=
  [(NSPasteboardTypePNG, png_bytes); (NSPasteboardTypeString, url_bytes)].

(** What Finder leaves behind after copying an image file. *)
Definition finder_copy : Pasteboard :=
  [(NSPasteboardTypeFileURL, list_byte_of_string "file:///tmp/a.tiff");
   (NSPasteboardTypeTIFF, tiff_bytes);
   (NSPasteboardTypeString, list_byte_of_string "a.tiff")].

(** A qualifying identifier list whose TIFF entry carries no bytes:
    the pattern matches, the extraction finds nothing, the content
    stays. *)
Definition hollow_copy : Pasteboard :=
  [(NSPasteboardTypeTIFF, []); (NSPasteboardTypeString, url_bytes)].

(** Plain text only. *)
Definition text_copy : Pasteboard :=
  [(NSPasteboardTypeString, url_bytes)].

(** ** Further observations *)

(** Diagnostic output: the DEBUG records and the separator line. *)
Definition is_chatter (a : Action) : bool :=
  match a with
  | Logged DEBUG _ => true
  | Printed _ => true
  | _ => false
  end.

(** The trace without its diagnostic output. *)
Definition audible (t : list Action) : list Action :=
  filter (fun a => negb (is_chatter a)) t.

(** Two states that differ at most in the logger level and in the
    diagnostic output produced so far. *)
Definition same_but_diagnostics (s s' : State) : Prop :=
  pasteboard s' = pasteboard s /\
  env s' = env s /\
  signals s' = signals s /\
  last_types s' = last_types s /\
  last_plain_text s' = last_plain_text s /\
  audible (trace s') = audible (trace s).

(** [c] cannot tell such states apart. *)
Definition blind {A} (c : M A) : Prop :=
  forall s s',
    same_but_diagnostics s s' ->
    result (c s') = result (c s) /\
    same_but_diagnostics (final (c s)) (final (c s')).

(** [c] does not consume the stop signal. *)
Definition deaf {A} (c : M A) : Prop :=
  forall s, signals (final (c s)) = signals s.

(** The diagnostic output itself. *)
Definition chatter (t : list Action) : list Action := filter is_chatter t.

(** With the logger at its default level, [c] leaves it there and
    produces no diagnostic output. *)
Definition hushed {A} (c : M A) : Prop :=
  forall s,
    debug_enabled s = false ->
    debug_enabled (final (c s)) = false /\
    chatter (trace (final (c s))) = chatter (trace s).

Definition is_rewrite (e : EnvEvent) : bool :=
  match e with
  | Rewrite _ => true
  | _ => false
  end.

(** No other writer shows up any more. *)
Definition alone (s : State) : Prop :=
  existsb is_rewrite (env s) = false.

Definition is_error (a : Action) : bool :=
  match a with
  | Logged ERROR _ => true
  | _ => false
  end.

Definition errors (t : list Action) : list Action := filter is_error t.

(** The identifiers [has_image_and_text] looks for. *)
Definition recognised (t : string) : bool :=
  existsb (String.eqb t)
    [NSPasteboardTypeTIFF; NSPasteboardTypePNG; NSPasteboardTypeString;
     NSPasteboardTypeFileURL; "public.file-path"].

(** What a rich-text copy adds next to the image and the URL. *)
Definition html_type : string := "public.html".

(** * Proofs *)

(** ** Membership and equality tests *)

Lemma contains_In (l : list string) (t : string) :
  contains l t = true <-> In t l.
Proof.
  unfold contains. rewrite existsb_exists. split.
  - intros [x [Hin Heq]]. apply String.eqb_eq in Heq. now subst.
  - intros Hin. exists t. split; [assumption | apply String.eqb_refl].
Qed.

Lemma has_image_In (l : list string) :
  has_image l = true <->
  In NSPasteboardTypeTIFF l \/ In NSPasteboardTypePNG l.
Proof.
  unfold has_image. cbn [existsb]. rewrite orb_false_r, orb_true_iff.
  now rewrite !contains_In.
Qed.

Lemma has_text_In (l : list string) :
  has_text l = true <-> In NSPasteboardTypeString l.
Proof. apply contains_In. Qed.

Lemma has_file_In (l : list string) :
  has_file l = true <->
  In NSPasteboardTypeFileURL l \/ In "public.file-path" l.
Proof.
  unfold has_file. cbn [existsb]. rewrite orb_false_r, orb_true_iff.
  now rewrite !contains_In.
Qed.

Lemma matches_pattern_In (l : list string) :
  matches_pattern (Some l) = true <->
  (In NSPasteboardTypeTIFF l \/ In NSPasteboardTypePNG l) /\
  In NSPasteboardTypeString l /\
  ~ (In NSPasteboardTypeFileURL l \/ In "public.file-path" l).
Proof.
  unfold matches_pattern.
  rewrite !andb_true_iff, negb_true_iff, <- not_true_iff_false.
  rewrite has_image_In, has_text_In, has_file_In. tauto.
Qed.

Lemma matches_pattern_ext (l l' : list string) :
  (forall t, In t l <-> In t l') ->
  matches_pattern (Some l) = matches_pattern (Some l').
Proof.
  intros Hsame. apply eq_true_iff_eq.
  rewrite !matches_pattern_In. now rewrite !Hsame.
Qed.

Lemma list_eqb_eq (l1 l2 : list string) : list_eqb l1 l2 = true <-> l1 = l2.
Proof.
  revert l2. induction l1 as [|x r1 IH]; intros [|y r2]; cbn [list_eqb];
    try (split; [discriminate | discriminate]); try tauto.
  rewrite andb_true_iff, String.eqb_eq, IH. split.
  - intros [-> ->]. reflexivity.
  - intros Heq. injection Heq as -> ->. now split.
Qed.

Lemma types_eqb_eq (a b : option (list string)) :
  types_eqb a b = true <-> a = b.
Proof.
  destruct a as [l1|], b as [l2|]; cbn [types_eqb];
    try (split; [discriminate | discriminate]); try tauto.
  rewrite list_eqb_eq. split; [now intros -> | now intros [= ->]].
Qed.

Lemma text_eqb_eq (a b : option string) : text_eqb a b = true <-> a = b.
Proof.
  destruct a as [x|], b as [y|]; cbn [text_eqb];
    try (split; [discriminate | discriminate]); try tauto.
  rewrite String.eqb_eq. split; [now intros -> | now intros [= ->]].
Qed.

(** The comparison of line 183, read on snapshots. *)
Lemma changed_iff (ct : option (list string)) (cp : option string) (s : State) :
  negb (types_eqb ct (last_types s)) || negb (text_eqb cp (last_plain_text s))
    = false
  <-> (ct, cp) = last_snapshot s.
Proof.
  unfold last_snapshot.
  rewrite orb_false_iff, !negb_false_iff, types_eqb_eq, text_eqb_eq.
  split; [now intros [-> ->] | now intros [= -> ->]].
Qed.

(** ** The classifier *)

Lemma has_image_and_text_run (types : option (list string)) (s : State) :
  result (has_image_and_text types s) = Return (matches_pattern types) /\
  pasteboard (final (has_image_and_text types s)) = pasteboard s /\
  env (final (has_image_and_text types s)) = env s.
Proof.
  destruct types as [[|t l]|]; cbn; auto.
  destruct (debug_enabled s); cbn; auto.
Qed.

(** C1.  For every identifier list, absent or not, [has_image_and_text]
    answers true exactly when the list holds a TIFF or PNG identifier,
    holds the plain-text identifier and holds neither file-reference
    identifier.  It always answers (it never raises) and touches
    neither the pasteboard nor the event schedule; [None] and the empty
    list give false; two lists with the same members give the same
    answer, so order and repetition do not count; the answer is the
    conjunction image, text, not file, and each of the eight presence
    combinations is realised by some list, so it is true for exactly
    one of them. *)
Theorem has_image_and_text_characterisation :
  forall (types : option (list string)) (s : State),
    (result (has_image_and_text types s) = Return true <->
     exists l, types = Some l /\
       (In NSPasteboardTypeTIFF l \/ In NSPasteboardTypePNG l) /\
       In NSPasteboardTypeString l /\
       ~ (In NSPasteboardTypeFileURL l \/ In "public.file-path" l)) /\
    (result (has_image_and_text types s) = Return true \/
     result (has_image_and_text types s) = Return false) /\
    pasteboard (final (has_image_and_text types s)) = pasteboard s /\
    env (final (has_image_and_text types s)) = env s /\
    result (has_image_and_text None s) = Return false /\
    result (has_image_and_text (Some []) s) = Return false /\
    (forall l l', (forall t, In t l <-> In t l') ->
       result (has_image_and_text (Some l) s)
       = result (has_image_and_text (Some l') s)) /\
    (forall l, result (has_image_and_text (Some l) s)
               = Return (has_image l && has_text l && negb (has_file l))) /\
    (forall image text file : bool, exists l,
       has_image l = image /\ has_text l = text /\ has_file l = file /\
       result (has_image_and_text (Some l) s)
       = Return (image && text && negb file)).
Proof.
  intros types s.
  destruct (has_image_and_text_run types s) as (Hres & Hpb & Henv).
  split; [split|].
  - rewrite Hres. intros [= Hm]. destruct types as [l|]; [|discriminate].
    exists l. split; [reflexivity|]. now apply matches_pattern_In.
  - intros (l & -> & Hl). rewrite Hres. f_equal. now apply matches_pattern_In.
  - split; [rewrite Hres; destruct (matches_pattern types); auto|].
    do 4 (split; [first [assumption | reflexivity]|]).
    split; [|split].
    + intros l l' Hsame.
      rewrite (proj1 (has_image_and_text_run (Some l) s)).
      rewrite (proj1 (has_image_and_text_run (Some l') s)).
      f_equal. now apply matches_pattern_ext.
    + intros l. apply (has_image_and_text_run (Some l) s).
    + intros image text file.
      exists ((if image then [NSPasteboardTypePNG] else [])
              ++ (if text then [NSPasteboardTypeString] else [])
              ++ (if file then ["public.file-path"] else [])).
      rewrite (proj1 (has_image_and_text_run _ s)).
      destruct image, text, file; repeat split; reflexivity.
Qed.

(** C1 at work: a duplicated, reordered Safari copy is classified like
    the plain one. *)
Lemma has_image_and_text_characterisation_witness :
  result (has_image_and_text
            (Some [NSPasteboardTypeString; NSPasteboardTypeTIFF;
                   NSPasteboardTypeString])
            (boot safari_copy [] []))
  = result (has_image_and_text (Some (identifiers safari_copy))
              (boot safari_copy [] [])).
Proof.
  destruct (has_image_and_text_characterisation None (boot safari_copy [] []))
    as (_ & _ & _ & _ & _ & _ & Hmembers & _).
  apply Hmembers. intros t. cbn. tauto.
Defined.

(** ** Symbolic execution *)

Ltac unfold_tick :=
  unfold loop_body,
    has_image_and_text, try_except_Exception, try_except, bind, ret, raise,
    log_info, log_error, log_debug,
    log_isEnabledFor_DEBUG, log_setLevel_DEBUG, print, time_sleep, set_last,
    emit, with_world, with_signals, with_debug, with_last, result, final in *.

Ltac unfold_script :=
  unfold loop_body, get_clipboard_contents, copy_image_only,
    has_image_and_text, try_except_Exception, try_except, bind, ret, raise,
    external, external_write, generalPasteboard, types, stringForType_,
    dataForType_, clearContents, setData_forType_, log_info, log_error,
    log_debug,
    log_isEnabledFor_DEBUG, log_setLevel_DEBUG, print, time_sleep, set_last,
    emit, with_world, with_signals, with_debug, with_last, result, final in *.

Ltac step :=
  cbn -[has_image has_text has_file types_eqb text_eqb identifiers text_of
        lookup store PrimFloat.leb PrimFloat.mul matches_pattern separator
        get_clipboard_contents copy_image_only sleep_rejection
        NSPasteboardTypeTIFF NSPasteboardTypePNG NSPasteboardTypeString
        NSPasteboardTypeFileURL filter] in *.

Ltac atomic c :=
  lazymatch c with
  | context [match _ with _ => _ end] => fail
  | _ => idtac
  end.

Ltac pick :=
  match goal with
  | H : lookup ?t ?pb = _ |- context [lookup ?t ?pb] => rewrite H
  | H : ?x = _ |- context [match ?x with _ => _ end] => rewrite H
  | |- context [match ?x with _ => _ end] => atomic x; destruct x eqn:?
  end.

Ltac run := unfold_script; repeat (step; pick); step.

Ltac tidy :=
  unfold fix_attempts, mutations, extractions, sleeps, handles;
  rewrite ?filter_app; cbn [filter is_detected is_mutation is_extraction
                            is_sleep is_handle app];
  rewrite <- ?app_assoc, ?app_nil_r; cbn [app].

(** ** Actions a computation does not perform *)

Lemma silent_ret (P : Action -> bool) {A} (a : A) : silent P (ret a).
Proof. intros s. cbn. repeat split; auto. discriminate. Qed.

Lemma silent_bind (P : Action -> bool) {A B} (c : M A) (k : A -> M B) :
  silent P c -> (forall a, silent P (k a)) -> silent P (bind c k).
Proof.
  intros Hc Hk s. specialize (Hc s). unfold bind, final, result in *.
  destruct (c s) as [[a|e] s1]; cbn [fst snd] in *;
    [|destruct Hc as (c1 & c2 & c3 & c4 & c5); repeat split; auto;
      intros [= ->]; now apply c5].
  specialize (Hk a s1). unfold final, result in Hk.
  destruct Hc as (c1 & c2 & c3 & c4 & _), Hk as (k1 & k2 & k3 & k4 & k5).
  repeat split; congruence.
Qed.

Lemma silent_try_except_Exception (P : Action -> bool) {A}
  (body : M A) (handler : string -> M A) :
  silent P body -> (forall e, silent P (handler e)) ->
  silent P (try_except_Exception body handler).
Proof.
  intros Hb Hh s. specialize (Hb s).
  unfold try_except_Exception, final, result in *.
  destruct (body s) as [[a|[e|]] s1]; cbn [fst snd] in *; try assumption.
  specialize (Hh e s1). unfold final, result in Hh.
  destruct Hb as (c1 & c2 & c3 & c4 & _), Hh as (k1 & k2 & k3 & k4 & k5).
  repeat split; congruence.
Qed.

Lemma silent_external (P : Action -> bool) {A} (c : PbCall)
  (serve : Pasteboard -> A * Pasteboard) :
  P (Called c) = false -> silent P (external c serve).
Proof.
  intros HP s. unfold external, final, result. cbn.
  destruct (env s) as [|[|why|content] rest]; cbn;
    try destruct (serve _); cbn; rewrite filter_app; cbn; rewrite HP;
    rewrite app_nil_r; repeat split; auto; discriminate.
Qed.

Lemma silent_external_write (P : Action -> bool) {A} (c : PbCall)
  (serve : Pasteboard -> A * Pasteboard) (refused : A) :
  P (Called c) = false -> silent P (external_write c serve refused).
Proof.
  intros HP s. unfold external_write, final, result. cbn.
  destruct (env s) as [|[|why|content] rest]; cbn;
    try destruct (serve _); cbn; rewrite filter_app; cbn; rewrite HP;
    rewrite app_nil_r; repeat split; auto; discriminate.
Qed.

Lemma silent_log_info (P : Action -> bool) (msg : Message) :
  P (Logged INFO msg) = false -> silent P (log_info msg).
Proof.
  intros HP s. cbn. rewrite filter_app. cbn. rewrite HP, app_nil_r.
  repeat split; auto; discriminate.
Qed.

Lemma silent_log_error (P : Action -> bool) (msg : Message) :
  P (Logged ERROR msg) = false -> silent P (log_error msg).
Proof.
  intros HP s. cbn. rewrite filter_app. cbn. rewrite HP, app_nil_r.
  repeat split; auto; discriminate.
Qed.

Lemma silent_log_debug (P : Action -> bool) (msg : Message) :
  P (Logged DEBUG msg) = false -> silent P (log_debug msg).
Proof.
  intros HP s. cbn. destruct (debug_enabled s) eqn:E; cbn;
    rewrite ?filter_app; cbn; rewrite ?HP, ?app_nil_r;
    repeat split; auto; discriminate.
Qed.

Lemma silent_for_each (P : Action -> bool) {A} (l : list A) (body : A -> M unit) :
  (forall x, silent P (body x)) -> silent P (for_each l body).
Proof.
  intros Hb. induction l as [|x rest IH]; cbn [for_each].
  - apply silent_ret.
  - apply silent_bind; [apply Hb | intros _; exact IH].
Qed.

(** A body that cannot be interrupted, under handlers that return. *)
Lemma try_except_Exception_returns (P : Action -> bool) {A}
  (body : M A) (handler : string -> M A) :
  silent P body ->
  (forall e s, exists a, result (handler e s) = Return a) ->
  forall s, exists a, result (try_except_Exception body handler s) = Return a.
Proof.
  intros Hb Hh s. destruct (Hb s) as (_ & _ & _ & _ & Hni).
  unfold try_except_Exception, result in *.
  destruct (body s) as [[a|[e|]] s1]; cbn [fst] in *.
  - now exists a.
  - apply Hh.
  - congruence.
Qed.

Ltac silence :=
  repeat first
    [ apply silent_ret
    | apply silent_log_info; reflexivity
    | apply silent_log_error; reflexivity
    | apply silent_log_debug; reflexivity
    | apply silent_external; reflexivity
    | apply silent_external_write; reflexivity
    | apply silent_bind; [|intros ?]
    | apply silent_try_except_Exception; [|intros ?]
    | apply silent_for_each; intros ?
    | match goal with
      | |- silent _ (match ?x with _ => _ end) => destruct x
      end ].

Lemma read_is_silent (P : Action -> bool) :
  P (Called CallGeneralPasteboard) = false ->
  P (Called CallTypes) = false ->
  P (Called (CallStringForType NSPasteboardTypeString)) = false ->
  (forall e, P (Logged ERROR (MsgAccessError e)) = false) ->
  silent P get_clipboard_contents.
Proof.
  intros H1 H2 H3 H4. unfold get_clipboard_contents.
  apply silent_try_except_Exception.
  - apply silent_bind; [now apply silent_external|intros pb].
    apply silent_bind; [now apply silent_external|intros ty].
    apply silent_bind; [now apply silent_external|intros tx].
    apply silent_ret.
  - intros e. apply silent_bind; [apply silent_log_error, H4|intros _].
    apply silent_ret.
Qed.

Lemma correction_is_undetected : silent is_detected copy_image_only.
Proof. unfold copy_image_only, generalPasteboard, dataForType_,
         clearContents, setData_forType_. silence. Qed.

Lemma correction_returns (s : State) :
  exists b, result (copy_image_only s) = Return b.
Proof.
  revert s. unfold copy_image_only.
  apply (try_except_Exception_returns nothing).
  - unfold generalPasteboard, dataForType_, clearContents, setData_forType_.
    silence.
  - intros e s. now exists false.
Qed.

(** [get_clipboard_contents] always returns, and its first component
    is [None] exactly when one of its three calls fails. *)
Lemma read_total (s : State) :
  exists ty tx, result (get_clipboard_contents s) = Return (ty, tx) /\
    (ty = None -> tx = None) /\
    (ty = None <-> read_faults s = true).
Proof.
  destruct s as [pb e sg dbg tr lt lx]. unfold read_faults. cbn [env].
  destruct e as [|[|w1|c1] [|[|w2|c2] [|[|w3|c3] e]]]; run;
    eexists; eexists; (split; [reflexivity|]);
    (split; [intros; congruence || reflexivity|]);
    split; intros; congruence || reflexivity.
Qed.

(** With nobody else around, a read reports the content as it is. *)
Lemma read_quiet (s : State) :
  env s = [] ->
  result (get_clipboard_contents s) = Return (snapshot_of (pasteboard s)) /\
  pasteboard (final (get_clipboard_contents s)) = pasteboard s /\
  env (final (get_clipboard_contents s)) = [].
Proof.
  destruct s as [pb e sg dbg tr lt lx]. cbn [env]. intros ->. run. auto.
Qed.

(** ** The corrector on an undisturbed pasteboard *)

Lemma correction_quiet (s : State) :
  env s = [] ->
  env (final (copy_image_only s)) = [] /\
  match lookup NSPasteboardTypeTIFF (pasteboard s) with
  | Some (b :: bs) =>
      result (copy_image_only s) = Return true /\
      pasteboard (final (copy_image_only s)) = [(NSPasteboardTypeTIFF, b :: bs)] /\
      trace (final (copy_image_only s))
      = trace s ++ [Called CallGeneralPasteboard;
                    Called (CallDataForType NSPasteboardTypeTIFF);
                    Called CallClearContents;
                    Called (CallSetDataForType (b :: bs) NSPasteboardTypeTIFF);
                    Logged INFO MsgRecopied]
  | _ =>
      match lookup NSPasteboardTypePNG (pasteboard s) with
      | Some (b :: bs) =>
          result (copy_image_only s) = Return true /\
          pasteboard (final (copy_image_only s))
          = [(NSPasteboardTypePNG, b :: bs)] /\
          trace (final (copy_image_only s))
          = trace s ++ [Called CallGeneralPasteboard;
                        Called (CallDataForType NSPasteboardTypeTIFF);
                        Called (CallDataForType NSPasteboardTypePNG);
                        Called CallClearContents;
                        Called (CallSetDataForType (b :: bs) NSPasteboardTypePNG);
                        Logged INFO MsgRecopied]
      | _ =>
          result (copy_image_only s) = Return false /\
          pasteboard (final (copy_image_only s)) = pasteboard s /\
          trace (final (copy_image_only s))
          = trace s ++ [Called CallGeneralPasteboard;
                        Called (CallDataForType NSPasteboardTypeTIFF);
                        Called (CallDataForType NSPasteboardTypePNG)]
                    ++ (if debug_enabled s
                        then [Logged DEBUG MsgNoImageData] else [])
      end
  end.
Proof.
  destruct s as [pb e sg dbg tr lt lx]. cbn [env pasteboard trace debug_enabled].
  intros ->. unfold_script. step.
  destruct (lookup NSPasteboardTypeTIFF pb) as [[|b bs]|] eqn:Htiff; step;
    try (destruct (lookup NSPasteboardTypePNG pb) as [[|b' bs']|] eqn:Hpng; step);
    try destruct dbg; step;
    rewrite <- ?app_assoc; cbn [app]; rewrite ?app_nil_r; auto.
Qed.

(** C2.  On a pasteboard that holds image bytes [B] under the TIFF
    identifier (a payload the script accepts, so not of length zero;
    whatever else is there, the plain text included), with no other
    writer and no access error during the call, [copy_image_only]
    succeeds, issues exactly two mutating calls, first
    [clearContents] and then one [setData_forType_] of [B] under TIFF,
    and leaves a pasteboard whose identifier list is exactly the TIFF
    identifier, with [B] stored under it. *)
Theorem copy_image_only_leaves_tiff_only :
  forall (s : State) (B : NSData),
    env s = [] ->
    lookup NSPasteboardTypeTIFF (pasteboard s) = Some B ->
    B <> [] ->
    result (copy_image_only s) = Return true /\
    pasteboard (final (copy_image_only s)) = [(NSPasteboardTypeTIFF, B)] /\
    identifiers (pasteboard (final (copy_image_only s))) = [NSPasteboardTypeTIFF] /\
    lookup NSPasteboardTypeTIFF (pasteboard (final (copy_image_only s))) = Some B /\
    mutations (trace (final (copy_image_only s)))
    = mutations (trace s)
      ++ [Called CallClearContents;
          Called (CallSetDataForType B NSPasteboardTypeTIFF)].
Proof.
  intros s B Hquiet Htiff HB.
  destruct (correction_quiet s Hquiet) as [_ Hrun]. rewrite Htiff in Hrun.
  destruct B as [|b bs]; [congruence|].
  destruct Hrun as (Hres & Hpb & Htr).
  rewrite Hres, Hpb, Htr. repeat split. tidy. reflexivity.
Qed.

(** C2 on the Safari copy of the spec: TIFF bytes and the text
    "https://example.com". *)
Lemma copy_image_only_leaves_tiff_only_witness :
  identifiers (pasteboard (final (copy_image_only (boot safari_copy [] []))))
  = [NSPasteboardTypeTIFF] /\
  lookup NSPasteboardTypeTIFF
    (pasteboard (final (copy_image_only (boot safari_copy [] []))))
  = Some tiff_bytes.
Proof.
  destruct (copy_image_only_leaves_tiff_only (boot safari_copy [] []) tiff_bytes)
    as (_ & _ & Hids & Hdata & _).
  - reflexivity.
  - reflexivity.
  - discriminate.
  - split; assumption.
Defined.

(** C5.  With no other writer and no access error during the call:
    the extraction calls of [copy_image_only] are [dataForType_] on
    TIFF, followed by [dataForType_] on PNG only when the TIFF call
    gave nothing the script accepts; when TIFF gives nothing and PNG
    holds bytes [B2], the call succeeds and what it writes is [B2]
    under the PNG identifier; and the call answers false exactly when
    neither identifier gives image data. *)
Theorem copy_image_only_prefers_tiff :
  forall (s : State),
    env s = [] ->
    extractions (trace (final (copy_image_only s)))
    = extractions (trace s)
      ++ (if truthy (lookup NSPasteboardTypeTIFF (pasteboard s))
          then [Called (CallDataForType NSPasteboardTypeTIFF)]
          else [Called (CallDataForType NSPasteboardTypeTIFF);
                Called (CallDataForType NSPasteboardTypePNG)]) /\
    (forall B2,
       truthy (lookup NSPasteboardTypeTIFF (pasteboard s)) = false ->
       lookup NSPasteboardTypePNG (pasteboard s) = Some B2 ->
       B2 <> [] ->
       result (copy_image_only s) = Return true /\
       pasteboard (final (copy_image_only s)) = [(NSPasteboardTypePNG, B2)] /\
       mutations (trace (final (copy_image_only s)))
       = mutations (trace s)
         ++ [Called CallClearContents;
             Called (CallSetDataForType B2 NSPasteboardTypePNG)]) /\
    (result (copy_image_only s) = Return false <->
     truthy (lookup NSPasteboardTypeTIFF (pasteboard s)) = false /\
     truthy (lookup NSPasteboardTypePNG (pasteboard s)) = false).
Proof.
  intros s Hquiet.
  destruct (correction_quiet s Hquiet) as [_ Hrun].
  destruct (lookup NSPasteboardTypeTIFF (pasteboard s)) as [[|b bs]|];
    destruct (lookup NSPasteboardTypePNG (pasteboard s)) as [[|b' bs']|];
    destruct Hrun as (Hres & Hpb & Htr); rewrite Hres, Hpb, Htr;
    cbn [truthy];
    (split; [tidy; rewrite ?filter_app;
             destruct (debug_enabled s); cbn; rewrite ?app_nil_r; reflexivity|]);
    (split; [intros B2 Hno HB2 Hne; try discriminate;
             injection HB2 as <-; try congruence;
             repeat split; tidy; reflexivity|]);
    split; try discriminate; try (intros [? ?]; discriminate); auto.
Qed.

(** C5 on a pasteboard with a PNG rendition only. *)
Lemma copy_image_only_prefers_tiff_witness :
  pasteboard (final (copy_image_only (boot png_copy [] [])))
  = [(NSPasteboardTypePNG, png_bytes)].
Proof.
  destruct (copy_image_only_prefers_tiff (boot png_copy [] []) eq_refl)
    as (_ & Hpng & _).
  destruct (Hpng png_bytes) as (_ & Hpb & _).
  - reflexivity.
  - reflexivity.
  - discriminate.
  - exact Hpb.
Defined.

(** ** One tick *)

Ltac meet_corrector :=
  match goal with
  | |- context [copy_image_only ?X] =>
      let H := fresh "Hsilent" in
      let R := fresh "Hreturns" in
      let E := fresh "Ecopy" in
      pose proof (proj1 (correction_is_undetected X)) as H;
      destruct (correction_returns X) as [? R];
      unfold final, result in H, R;
      destruct (copy_image_only X) as [? ?] eqn:E;
      cbn [fst snd trace] in H, R; subst
  end.

(** Whatever the environment does, a tick adds one line 196 to the
    trace when [fires] holds and none otherwise, and records the
    snapshot it read when the read succeeded. *)
Lemma tick_attempts (p : float) (s s1 : State)
  (ct : option (list string)) (cp : option string) :
  get_clipboard_contents s = (Return (ct, cp), s1) ->
  fix_attempts (trace (final (loop_body p s)))
  = fix_attempts (trace s) + (if fires s ct cp then 1 else 0) /\
  (ct <> None -> last_snapshot (final (loop_body p s)) = (ct, cp)) /\
  (ct = None -> last_snapshot (final (loop_body p s)) = last_snapshot s).
Proof.
  intros Eread.
  assert (Hread : silent is_detected get_clipboard_contents)
    by (apply read_is_silent; reflexivity).
  specialize (Hread s). unfold final in Hread. rewrite Eread in Hread.
  cbn [snd] in Hread. destruct Hread as (Htr & Hlt & Hlx & _).
  unfold fires, fix_attempts, last_snapshot. rewrite <- Htr, <- Hlt, <- Hlx.
  clear Htr Hlt Hlx.
  unfold loop_body, bind at 1, final. rewrite Eread.
  destruct s1 as [pb e sg dbg tr lt lx]. unfold_tick. step.
  unfold matches_pattern.
  destruct ct as [[|t l]|];
    [change (has_image [] && has_text [] && negb (has_file [])) with false| |];
    step; destruct dbg; step;
    repeat (first [meet_corrector | pick]; step);
    (split; [ rewrite ?filter_app; try rewrite Hsilent; rewrite ?filter_app;
              cbn; rewrite ?length_app; cbn; lia
            | split; congruence ]).
Qed.

Lemma correction_quiet_content (s : State) :
  env s = [] ->
  env (final (copy_image_only s)) = [] /\
  pasteboard (final (copy_image_only s)) = corrected (pasteboard s).
Proof.
  intros Hquiet. destruct (correction_quiet s Hquiet) as [Henv Hrun].
  split; [assumption|]. unfold corrected.
  destruct (lookup NSPasteboardTypeTIFF (pasteboard s)) as [[|b bs]|];
    try destruct (lookup NSPasteboardTypePNG (pasteboard s)) as [[|b' bs']|];
    apply Hrun.
Qed.

(** After a correction attempt the content either is what it was or
    no longer matches the pattern. *)
Lemma corrected_settles (pb : Pasteboard) :
  corrected pb = pb \/
  matches_pattern (Some (identifiers (corrected pb))) = false.
Proof.
  unfold corrected.
  destruct (lookup NSPasteboardTypeTIFF pb) as [[|b bs]|];
    try destruct (lookup NSPasteboardTypePNG pb) as [[|b' bs']|];
    auto.
Qed.

Ltac meet_quiet_corrector :=
  match goal with
  | |- context [copy_image_only ?X] =>
      let Q := fresh "Hquiet" in
      let R := fresh "Hreturns" in
      let E := fresh "Ecopy" in
      pose proof (correction_quiet_content X eq_refl) as Q;
      destruct (correction_returns X) as [? R];
      unfold final, result in Q, R;
      destruct (copy_image_only X) as [? ?] eqn:E;
      cbn [fst snd pasteboard env] in Q, R; destruct Q; subst
  end.


(** A tick with nobody else around: the schedule stays empty and the
    content afterwards is the corrected one if the tick fired, the
    same one otherwise. *)
Lemma tick_quiet (p : float) (s : State) :
  env s = [] ->
  env (final (loop_body p s)) = [] /\
  pasteboard (final (loop_body p s))
  = if fires s (Some (identifiers (pasteboard s)))
             (text_of (pasteboard s) NSPasteboardTypeString)
    then corrected (pasteboard s) else pasteboard s.
Proof.
  intros Hquiet.
  destruct (read_quiet s Hquiet) as (Hres & Hpb & Henv).
  assert (Hread : silent nothing get_clipboard_contents)
    by (apply read_is_silent; reflexivity).
  destruct (Hread s) as (_ & Hlt & Hlx & _). clear Hread.
  unfold fires, final, result, snapshot_of in *.
  destruct (get_clipboard_contents s) as [r s1] eqn:Eread.
  cbn [fst snd] in *. subst r.
  rewrite <- Hpb, <- Hlt, <- Hlx in *. clear Hpb Hlt Hlx Hquiet.
  destruct s1 as [pb e sg dbg tr lt lx]. cbn [env pasteboard] in *. subst e.
  unfold_tick. step. unfold matches_pattern.
  destruct dbg; step;
    repeat (first [meet_quiet_corrector | pick]; step);
    try (split; [assumption || reflexivity | assumption || reflexivity]);
    try discriminate.
Qed.

(** A tick that does not fire does nothing to the pasteboard after its
    read: no extraction, no clear, no write. *)
Lemma tick_idle (p : float) (s s1 : State)
  (ct : option (list string)) (cp : option string) :
  get_clipboard_contents s = (Return (ct, cp), s1) ->
  fires s ct cp = false ->
  pasteboard (final (loop_body p s)) = pasteboard s1 /\
  env (final (loop_body p s)) = env s1 /\
  mutations (trace (final (loop_body p s))) = mutations (trace s) /\
  extractions (trace (final (loop_body p s))) = extractions (trace s).
Proof.
  intros Eread.
  assert (Hmut : silent is_mutation get_clipboard_contents)
    by (apply read_is_silent; reflexivity).
  assert (Hext : silent is_extraction get_clipboard_contents)
    by (apply read_is_silent; reflexivity).
  specialize (Hmut s). specialize (Hext s). unfold final in Hmut, Hext.
  rewrite Eread in Hmut, Hext. cbn [snd] in Hmut, Hext.
  destruct Hmut as (Hmut & Hlt & Hlx & _). destruct Hext as (Hext & _).
  unfold fires, mutations, extractions. rewrite <- Hmut, <- Hext, <- Hlt, <- Hlx.
  clear Hmut Hext Hlt Hlx.
  unfold final.
  destruct s1 as [pb e sg dbg tr lt lx]. unfold_tick. step.
  unfold matches_pattern.
  destruct ct as [[|t l]|];
    [change (has_image [] && has_text [] && negb (has_file [])) with false| |];
    step; intros Hfire; destruct dbg; step;
    repeat (pick; step); try discriminate;
    rewrite ?filter_app; cbn [filter is_mutation is_extraction];
    rewrite ?app_nil_r; auto.
Qed.

(** ** The loop *)

(** One turn of [while True], spelled out. *)
Lemma monitor_S (n : nat) (p : float) (s : State) :
  monitor (S n) p s
  = match loop_body p s with
    | (Return _, s1) => monitor n p s1
    | (Raise KeyboardInterrupt, s1) =>
        (Return Stopped, emit (Logged INFO MsgStopping) s1)
    | (Raise (Exception e), s1) =>
        match time_sleep (p * 5)%float
                (emit (Logged ERROR (MsgUnexpected e)) s1) with
        | (Return _, s2) => monitor n p s2
        | (Raise e', s2) => (Raise e', s2)
        end
    end.
Proof.
  cbn [monitor]. unfold bind, try_except, log_error, log_info, ret.
  destruct (loop_body p s) as [[[]|[e|]] s1]; try reflexivity.
  destruct (time_sleep _ _) as [[[]|e'] s2]; reflexivity.
Qed.

(** One turn of [while True] is one tick followed, possibly, by
    logging and sleeping, after which the loop either ends or goes on. *)
Lemma monitor_step (n : nat) (p : float) (s : State) :
  exists s1,
    same_core (final (loop_body p s)) s1 /\
    (final (monitor (S n) p s) = s1 \/
     final (monitor (S n) p s) = final (monitor n p s1)).
Proof.
  rewrite monitor_S. unfold final, same_core, last_snapshot.
  destruct (loop_body p s) as [[[]|[e|]] s1]; cbn [fst snd].
  - exists s1. split; [repeat split; reflexivity | right; reflexivity].
  - unfold time_sleep, raise.
    destruct (sleep_rejection (p * 5)) as [what|]; cbn.
    + eexists. split; [|left; reflexivity]. cbn. tidy.
      repeat split; reflexivity.
    + destruct (signals s1) as [|[|] rest]; cbn; eexists;
        (split; [|first [right; reflexivity | left; reflexivity]]);
        cbn; tidy; repeat split; reflexivity.
  - eexists. split; [|left; reflexivity]. cbn. tidy. repeat split; reflexivity.
Qed.

Lemma settled_same_core (s s1 : State) :
  settled s -> same_core s s1 -> settled s1.
Proof.
  unfold settled, same_core.
  intros (Henv & Hstay) (Hpb & Henv1 & Hlast & _).
  rewrite Hpb, Henv1, Hlast. now split.
Qed.

Lemma settled_never_fires (s : State) :
  settled s ->
  fires s (Some (identifiers (pasteboard s)))
          (text_of (pasteboard s) NSPasteboardTypeString) = false.
Proof.
  intros (_ & [Hsame | Hno]); unfold fires.
  - apply changed_iff in Hsame. now rewrite Hsame.
  - rewrite Hno. apply andb_false_r.
Qed.

(** With nobody else around, the full description of one tick. *)
Lemma tick_quiet_summary (p : float) (s : State) :
  env s = [] ->
  let fire := fires s (Some (identifiers (pasteboard s)))
                      (text_of (pasteboard s) NSPasteboardTypeString) in
  env (final (loop_body p s)) = [] /\
  pasteboard (final (loop_body p s))
  = (if fire then corrected (pasteboard s) else pasteboard s) /\
  last_snapshot (final (loop_body p s)) = snapshot_of (pasteboard s) /\
  fix_attempts (trace (final (loop_body p s)))
  = fix_attempts (trace s) + (if fire then 1 else 0) /\
  (fire = false ->
   mutations (trace (final (loop_body p s))) = mutations (trace s) /\
   extractions (trace (final (loop_body p s))) = extractions (trace s)).
Proof.
  intros Hquiet fire.
  destruct (tick_quiet p s Hquiet) as (Henv & Hpb).
  destruct (read_quiet s Hquiet) as (Hres & _).
  unfold result, snapshot_of in Hres.
  destruct (get_clipboard_contents s) as [r s1] eqn:Eread.
  cbn [fst] in Hres. subst r.
  destruct (tick_attempts p s s1 _ _ Eread) as (Hatt & Hlast & _).
  repeat split; try assumption.
  - apply Hlast. discriminate.
  - now apply (tick_idle p s s1 _ _ Eread).
  - now apply (tick_idle p s s1 _ _ Eread).
Qed.

Lemma settled_tick (p : float) (s : State) :
  settled s ->
  settled (final (loop_body p s)) /\
  pasteboard (final (loop_body p s)) = pasteboard s /\
  fix_attempts (trace (final (loop_body p s))) = fix_attempts (trace s) /\
  mutations (trace (final (loop_body p s))) = mutations (trace s) /\
  extractions (trace (final (loop_body p s))) = extractions (trace s).
Proof.
  intros Hs. pose proof (settled_never_fires s Hs) as Hno.
  destruct Hs as (Hquiet & _).
  destruct (tick_quiet_summary p s Hquiet) as (Henv & Hpb & Hlast & Hatt & Hidle).
  rewrite Hno in *. destruct (Hidle eq_refl) as (Hmut & Hext).
  repeat split; try assumption.
  - left. now rewrite Hpb, Hlast.
  - rewrite Hatt. lia.
Qed.

Lemma settled_monitor (p : float) (n : nat) :
  forall s, settled s ->
    pasteboard (final (monitor n p s)) = pasteboard s /\
    fix_attempts (trace (final (monitor n p s))) = fix_attempts (trace s) /\
    mutations (trace (final (monitor n p s))) = mutations (trace s) /\
    extractions (trace (final (monitor n p s))) = extractions (trace s).
Proof.
  induction n as [|n IH]; intros s Hs.
  - cbn. auto.
  - destruct (settled_tick p s Hs) as (Hs' & Hpb & Hatt & Hmut & Hext).
    destruct (monitor_step n p s) as (s1 & Hcore & [-> | ->]).
    + destruct Hcore as (Hpb1 & _ & _ & Hatt1 & Hmut1 & Hext1 & _).
      repeat split; congruence.
    + destruct (IH s1 (settled_same_core _ _ Hs' Hcore))
        as (Hpb2 & Hatt2 & Hmut2 & Hext2).
      destruct Hcore as (Hpb1 & _ & _ & Hatt1 & Hmut1 & Hext1 & _).
      repeat split; congruence.
Qed.

(** Whatever the first tick does on a quiet pasteboard, it leaves a
    settled state. *)
Lemma quiet_tick_settles (p : float) (s : State) :
  env s = [] -> settled (final (loop_body p s)).
Proof.
  intros Hquiet.
  destruct (tick_quiet_summary p s Hquiet) as (Henv & Hpb & Hlast & _).
  split; [assumption|]. rewrite Hpb, Hlast.
  destruct (fires s _ _); [|now left].
  destruct (corrected_settles (pasteboard s)) as [-> | Hno]; [now left|now right].
Qed.

(** ** Counting the calls *)

Lemma lookup_store (t : string) (d : NSData) (pb : Pasteboard) :
  lookup t (store t d pb) = Some d.
Proof.
  induction pb as [|[t' d'] rest IH]; cbn [store lookup].
  - now rewrite String.eqb_refl.
  - destruct (String.eqb t t') eqn:E; cbn [lookup]; rewrite ?String.eqb_refl;
      [reflexivity | now rewrite E].
Qed.

(** A pasteboard call either fails, leaving the content as it was, or
    is served on some content, which is the current one unless another
    writer has just replaced it. *)
Lemma external_cases {A} (c : PbCall) (serve : Pasteboard -> A * Pasteboard)
  (s : State) :
  (exists why,
     external c serve s
     = (Raise (Exception why),
        with_world (pasteboard s) (tl (env s)) (emit (Called c) s))) \/
  (exists pb0,
     external c serve s
     = (Return (fst (serve pb0)),
        with_world (snd (serve pb0)) (tl (env s)) (emit (Called c) s))).
Proof.
  unfold external. cbn [env emit pasteboard].
  destruct (env s) as [|[|why|content] rest]; cbn [tl].
  - right. exists (pasteboard s). now destruct (serve (pasteboard s)).
  - right. exists (pasteboard s). now destruct (serve (pasteboard s)).
  - left. now exists why.
  - right. exists content. now destruct (serve content).
Qed.

(** A write fails, or is served on the current content, or is refused
    because another writer has just put its own content there. *)
Lemma external_write_cases {A} (c : PbCall)
  (serve : Pasteboard -> A * Pasteboard) (refused : A) (s : State) :
  (exists why,
     external_write c serve refused s
     = (Raise (Exception why),
        with_world (pasteboard s) (tl (env s)) (emit (Called c) s))) \/
  external_write c serve refused s
  = (Return (fst (serve (pasteboard s))),
     with_world (snd (serve (pasteboard s))) (tl (env s)) (emit (Called c) s)) \/
  (exists content,
     hd Quiet (env s) = Rewrite content /\
     external_write c serve refused s
     = (Return refused, with_world content (tl (env s)) (emit (Called c) s))).
Proof.
  unfold external_write. cbn [env emit pasteboard].
  destruct (env s) as [|[|why|content] rest]; cbn [tl hd].
  - right. left. now destruct (serve (pasteboard s)).
  - right. left. now destruct (serve (pasteboard s)).
  - left. now exists why.
  - right. right. now exists content.
Qed.

Ltac call :=
  match goal with
  | |- context [external ?c ?f ?st] =>
      lazymatch st with
      | context [external _ _ _] => fail
      | _ => idtac
      end;
      let H := fresh "Ecall" in
      let why := fresh "why" in
      let pb0 := fresh "pb" in
      destruct (external_cases c f st) as [(why & H) | (pb0 & H)];
      rewrite H; clear H
  | |- context [external_write ?c ?f ?r ?st] =>
      lazymatch st with
      | context [external _ _ _] => fail
      | _ => idtac
      end;
      let H := fresh "Ecall" in
      let Hw := fresh "Hwriter" in
      let why := fresh "why" in
      let content := fresh "content" in
      destruct (external_write_cases c f r st)
        as [(why & H) | [H | (content & Hw & H)]];
      rewrite H; clear H
  end.

Ltac step_calls :=
  cbn -[external external_write lookup store filter
        NSPasteboardTypeTIFF NSPasteboardTypePNG].

Ltac unfold_corrector :=
  unfold copy_image_only, generalPasteboard, dataForType_, clearContents,
    setData_forType_, try_except_Exception, bind, ret, log_info, log_error,
    log_debug, result, final;
  cbn [for_each]; unfold bind, ret.

Ltac walk_corrector :=
  repeat (step_calls;
          first [ call
                | match goal with
                  | |- context [truthy (lookup ?t ?pb)] =>
                      destruct (lookup t pb) as [[|? ?]|] eqn:?
                  | |- context [match lookup ?t ?pb with _ => _ end] =>
                      destruct (lookup t pb) as [[|? ?]|] eqn:?
                  end ]);
  step_calls.

(** Whatever the environment does, one run of [copy_image_only] asks
    for the pasteboard once and issues at most two extraction calls and
    at most two clear or write calls. *)
Lemma correction_counts (s : State) :
  handles (trace (final (copy_image_only s)))
  = handles (trace s) ++ [Called CallGeneralPasteboard] /\
  List.length (mutations (trace (final (copy_image_only s))))
  <= List.length (mutations (trace s)) + 2 /\
  List.length (extractions (trace (final (copy_image_only s))))
  <= List.length (extractions (trace s)) + 2.
Proof.
  unfold_corrector. walk_corrector;
    try destruct (debug_enabled s);
    cbn [trace emit with_world snd];
    unfold handles, mutations, extractions; rewrite ?filter_app;
    cbn [filter is_handle is_mutation is_extraction app];
    rewrite ?app_nil_r, <- ?app_assoc, ?length_app; cbn [app List.length];
    (split; [reflexivity|split; lia]).
Qed.

(** So does one run of [get_clipboard_contents]. *)
Lemma read_counts (s : State) :
  handles (trace (final (get_clipboard_contents s)))
  = handles (trace s) ++ [Called CallGeneralPasteboard].
Proof.
  unfold get_clipboard_contents, generalPasteboard, types, stringForType_,
    try_except_Exception, bind, ret, log_error, final.
  repeat (step_calls; call); step_calls;
    cbn [trace emit with_world snd]; unfold handles; rewrite ?filter_app;
    cbn [filter is_handle app]; rewrite ?app_nil_r, <- ?app_assoc;
    reflexivity.
Qed.

(** On an undisturbed pasteboard the calls of one run are these. *)
Lemma correction_quiet_calls (s : State) :
  env s = [] ->
  mutations (trace (final (copy_image_only s)))
  = mutations (trace s) ++ mutation_calls (pasteboard s) /\
  extractions (trace (final (copy_image_only s)))
  = extractions (trace s) ++ extraction_calls (pasteboard s).
Proof.
  intros Hquiet. destruct (correction_quiet s Hquiet) as [_ Hrun].
  unfold mutation_calls, extraction_calls.
  destruct (lookup NSPasteboardTypeTIFF (pasteboard s)) as [[|b bs]|];
    try destruct (lookup NSPasteboardTypePNG (pasteboard s)) as [[|b' bs']|];
    destruct Hrun as (_ & _ & Htr); rewrite Htr; cbn [truthy];
    try destruct (debug_enabled s); tidy; rewrite ?filter_app;
    cbn [filter is_mutation is_extraction app]; rewrite ?app_nil_r;
    split; reflexivity.
Qed.

Ltac meet_corrector_counting :=
  match goal with
  | |- context [copy_image_only ?X] =>
      let H := fresh "Hcounts" in
      let R := fresh "Hreturns" in
      let E := fresh "Ecopy" in
      pose proof (correction_counts X) as H;
      destruct (correction_returns X) as [? R];
      unfold final, result in H, R;
      destruct (copy_image_only X) as [? ?] eqn:E;
      cbn [fst snd trace] in H, R; destruct H as (?Hh & ?Hm & ?He); subst
  end.

(** Whatever the environment does, a tick asks for the pasteboard once
    for its read and once more exactly when it fires, and issues at
    most two extraction calls and two clear or write calls. *)
Lemma tick_calls (p : float) (s s1 : State)
  (ct : option (list string)) (cp : option string) :
  get_clipboard_contents s = (Return (ct, cp), s1) ->
  handles (trace (final (loop_body p s)))
  = handles (trace s)
    ++ Called CallGeneralPasteboard
       :: (if fires s ct cp then [Called CallGeneralPasteboard] else []) /\
  List.length (mutations (trace (final (loop_body p s))))
  <= List.length (mutations (trace s)) + 2 /\
  List.length (extractions (trace (final (loop_body p s))))
  <= List.length (extractions (trace s)) + 2.
Proof.
  intros Eread.
  assert (Hmut : silent is_mutation get_clipboard_contents)
    by (apply read_is_silent; reflexivity).
  assert (Hext : silent is_extraction get_clipboard_contents)
    by (apply read_is_silent; reflexivity).
  pose proof (read_counts s) as Hh.
  specialize (Hmut s). specialize (Hext s). unfold final in Hmut, Hext, Hh.
  rewrite Eread in Hmut, Hext, Hh. cbn [snd] in Hmut, Hext, Hh.
  destruct Hmut as (Hmut & Hlt & Hlx & _). destruct Hext as (Hext & _).
  change (handles (trace s) ++ Called CallGeneralPasteboard
            :: (if fires s ct cp then [Called CallGeneralPasteboard] else []))
    with (handles (trace s) ++ [Called CallGeneralPasteboard]
            ++ (if fires s ct cp then [Called CallGeneralPasteboard] else [])).
  rewrite app_assoc, <- Hh.
  unfold fires, mutations, extractions, handles in *.
  rewrite <- Hmut, <- Hext, <- Hlt, <- Hlx.
  clear Hmut Hext Hlt Hlx Hh.
  unfold final.
  destruct s1 as [pb e sg dbg tr lt lx]. unfold_tick. step.
  unfold matches_pattern.
  destruct ct as [[|t l]|];
    [change (has_image [] && has_text [] && negb (has_file [])) with false| |];
    step; destruct dbg; step;
    repeat (first [meet_corrector_counting | pick]; step);
    unfold handles, mutations, extractions in *;
    rewrite ?filter_app in *;
    cbn [filter is_handle is_mutation is_extraction app] in *;
    rewrite ?app_nil_r, ?length_app in *; cbn [List.length] in *;
    (split; [first [reflexivity | assumption | congruence]|split; lia]).
Qed.

(** On an undisturbed pasteboard the clear, write and extraction calls
    of a tick are those of one run of the corrector when it fires and
    none otherwise. *)
Lemma tick_quiet_calls (p : float) (s : State) :
  env s = [] ->
  mutations (trace (final (loop_body p s)))
  = mutations (trace s)
    ++ (if fires s (Some (identifiers (pasteboard s)))
                 (text_of (pasteboard s) NSPasteboardTypeString)
        then mutation_calls (pasteboard s) else []) /\
  extractions (trace (final (loop_body p s)))
  = extractions (trace s)
    ++ (if fires s (Some (identifiers (pasteboard s)))
                 (text_of (pasteboard s) NSPasteboardTypeString)
        then extraction_calls (pasteboard s) else []).
Proof.
  intros Hquiet.
  destruct (read_quiet s Hquiet) as (Hres & Hpb & Henv).
  unfold result, snapshot_of in Hres.
  destruct (get_clipboard_contents s) as [r s1] eqn:Eread.
  cbn [fst] in Hres. subst r. unfold final in Hpb, Henv. cbn [snd] in Hpb, Henv.
  destruct (fires s _ _) eqn:Hfire.
  - assert (Hmut : silent is_mutation get_clipboard_contents)
      by (apply read_is_silent; reflexivity).
    assert (Hext : silent is_extraction get_clipboard_contents)
      by (apply read_is_silent; reflexivity).
    specialize (Hmut s). specialize (Hext s). unfold final in Hmut, Hext.
    rewrite Eread in Hmut, Hext. cbn [snd] in Hmut, Hext.
    destruct Hmut as (Hmut & Hlt & Hlx & _). destruct Hext as (Hext & _).
    unfold fires in Hfire. unfold mutations, extractions in *.
    rewrite <- Hmut, <- Hext, <- Hlt, <- Hlx in *. rewrite <- Hpb in *.
    clear Hmut Hext Hlt Hlx Hpb Hquiet.
    unfold final.
    destruct s1 as [pb e sg dbg tr lt lx]. cbn [env pasteboard] in *. subst e.
    unfold_tick. step. unfold matches_pattern in Hfire.
    apply andb_prop in Hfire. destruct Hfire as [Hchanged Hmatch].
    destruct dbg; step;
      repeat (first
        [ match goal with
          | |- context [copy_image_only ?X] =>
              let Q := fresh "Hcalls" in
              let R := fresh "Hreturns" in
              pose proof (correction_quiet_calls X eq_refl) as Q;
              destruct (correction_returns X) as [? R];
              unfold final, result, mutations, extractions in Q, R;
              destruct (copy_image_only X) as [? ?];
              cbn [fst snd trace pasteboard] in Q, R; destruct Q; subst
          end
        | pick ]; step);
      try discriminate;
      rewrite ?filter_app in *;
      cbn [filter is_mutation is_extraction app] in *;
      rewrite ?app_nil_r in *; split; assumption.
  - destruct (tick_idle p s s1 _ _ Eread Hfire) as (_ & _ & Hmut & Hext).
    now rewrite Hmut, Hext, !app_nil_r.
Qed.

Lemma call_lists_short (pb : Pasteboard) :
  List.length (mutation_calls pb) <= 2 /\
  List.length (extraction_calls pb) <= 2.
Proof.
  unfold mutation_calls, extraction_calls.
  destruct (lookup NSPasteboardTypeTIFF pb) as [[|b bs]|];
    try destruct (lookup NSPasteboardTypePNG pb) as [[|b' bs']|];
    cbn; lia.
Qed.

(** C3.  For every poll interval:
    - whatever the environment does, a tick runs the corrector exactly
      once when the snapshot it read is a successful read, differs from
      the recorded one (identifier list or plain text) and matches the
      pattern: line 196 is logged once and the pasteboard is asked for
      twice, once by the read and once by the one run of
      [copy_image_only]; otherwise the tick does not run it: line 196
      is not logged, the pasteboard is asked for by the read only, and
      there is no extraction, clear or write call;
    - when two consecutive ticks read the same snapshot, the second
      does not run the corrector (no line 196, one request for the
      pasteboard, no extraction, clear or write call), so the two
      together run it at most once;
    - while nobody else touches the pasteboard, any number of turns of
      the loop runs the corrector at most once, however long the
      qualifying content stays there: line 196 is logged at most once
      and at most two extraction calls and two clear or write calls
      are made in all, those of a single run. *)
Theorem corrector_fires_once_per_change :
  forall (p : float),
    (forall s ct cp,
       result (get_clipboard_contents s) = Return (ct, cp) ->
       (fix_attempts (trace (final (loop_body p s)))
        = fix_attempts (trace s) + 1 /\
        handles (trace (final (loop_body p s)))
        = handles (trace s)
          ++ [Called CallGeneralPasteboard; Called CallGeneralPasteboard] /\
        ct <> None /\ (ct, cp) <> last_snapshot s /\
        matches_pattern ct = true)
       \/
       (fix_attempts (trace (final (loop_body p s)))
        = fix_attempts (trace s) /\
        handles (trace (final (loop_body p s)))
        = handles (trace s) ++ [Called CallGeneralPasteboard] /\
        mutations (trace (final (loop_body p s))) = mutations (trace s) /\
        extractions (trace (final (loop_body p s))) = extractions (trace s) /\
        (ct = None \/ (ct, cp) = last_snapshot s \/
         matches_pattern ct = false))) /\
    (forall s snap,
       fst snap <> None ->
       result (get_clipboard_contents s) = Return snap ->
       result (get_clipboard_contents (final (loop_body p s))) = Return snap ->
       fix_attempts (trace (final (loop_body p (final (loop_body p s)))))
       = fix_attempts (trace (final (loop_body p s))) /\
       handles (trace (final (loop_body p (final (loop_body p s)))))
       = handles (trace (final (loop_body p s)))
         ++ [Called CallGeneralPasteboard] /\
       mutations (trace (final (loop_body p (final (loop_body p s)))))
       = mutations (trace (final (loop_body p s))) /\
       extractions (trace (final (loop_body p (final (loop_body p s)))))
       = extractions (trace (final (loop_body p s))) /\
       fix_attempts (trace (final (loop_body p (final (loop_body p s)))))
       <= fix_attempts (trace s) + 1) /\
    (forall n s,
       env s = [] ->
       fix_attempts (trace (final (monitor n p s)))
       <= fix_attempts (trace s) + 1 /\
       List.length (mutations (trace (final (monitor n p s))))
       <= List.length (mutations (trace s)) + 2 /\
       List.length (extractions (trace (final (monitor n p s))))
       <= List.length (extractions (trace s)) + 2).
Proof.
  intros p. split; [|split].
  - intros s ct cp Hres. unfold result in Hres.
    destruct (get_clipboard_contents s) as [r s1] eqn:Eread.
    cbn [fst] in Hres. subst r.
    destruct (tick_attempts p s s1 ct cp Eread) as (Hatt & _).
    destruct (tick_calls p s s1 ct cp Eread) as (Hh & _).
    destruct (fires s ct cp) eqn:Hfire.
    + left. unfold fires in Hfire.
      apply andb_prop in Hfire. destruct Hfire as [Hfire Hm].
      apply andb_prop in Hfire. destruct Hfire as [Hchanged Hsome].
      repeat split; try assumption.
      * intros ->. discriminate Hsome.
      * intros Heq. apply changed_iff in Heq. congruence.
    + right. destruct (tick_idle p s s1 ct cp Eread Hfire) as (_ & _ & Hmut & Hext).
      split; [lia|]. repeat split; try assumption.
      unfold fires in Hfire.
      destruct (negb (types_eqb ct (last_types s))
                || negb (text_eqb cp (last_plain_text s))) eqn:Hchanged.
      * destruct ct as [l|]; [|now left]. right. right. exact Hfire.
      * right. left. now apply changed_iff.
  - intros s [ct cp] Hsome Hres1 Hres2. cbn [fst] in Hsome.
    unfold result in Hres1, Hres2.
    destruct (get_clipboard_contents s) as [r s1] eqn:Eread1.
    cbn [fst] in Hres1. subst r.
    destruct (tick_attempts p s s1 ct cp Eread1) as (Hatt1 & Hlast1 & _).
    specialize (Hlast1 Hsome).
    destruct (get_clipboard_contents (final (loop_body p s))) as [r s2] eqn:Eread2.
    cbn [fst] in Hres2. subst r.
    destruct (tick_attempts p _ s2 ct cp Eread2) as (Hatt2 & _).
    destruct (tick_calls p _ s2 ct cp Eread2) as (Hh2 & _).
    assert (Hno : fires (final (loop_body p s)) ct cp = false).
    { unfold fires. symmetry in Hlast1. apply changed_iff in Hlast1.
      now rewrite Hlast1. }
    destruct (tick_idle p _ s2 ct cp Eread2 Hno) as (_ & _ & Hmut2 & Hext2).
    rewrite Hno in Hatt2, Hh2.
    split; [lia|]. repeat split; try assumption.
    destruct (fires s ct cp); lia.
  - intros n s Hquiet.
    destruct n as [|n]; [cbn; lia|].
    pose proof (quiet_tick_settles p s Hquiet) as Hsettled.
    destruct (tick_quiet_summary p s Hquiet) as (_ & _ & _ & Hatt & _).
    destruct (tick_quiet_calls p s Hquiet) as (Hmut & Hext).
    destruct (call_lists_short (pasteboard s)) as (Hm2 & He2).
    assert (Hle : fix_attempts (trace (final (loop_body p s)))
                  <= fix_attempts (trace s) + 1)
      by (destruct (fires s _ _); lia).
    assert (Hlm : List.length (mutations (trace (final (loop_body p s))))
                  <= List.length (mutations (trace s)) + 2)
      by (rewrite Hmut, length_app; destruct (fires s _ _); cbn; lia).
    assert (Hlx : List.length (extractions (trace (final (loop_body p s))))
                  <= List.length (extractions (trace s)) + 2)
      by (rewrite Hext, length_app; destruct (fires s _ _); cbn; lia).
    destruct (monitor_step n p s) as (s1 & Hcore & [-> | ->]).
    + destruct Hcore as (_ & _ & _ & Hatt1 & Hmut1 & Hext1 & _).
      rewrite Hatt1, Hmut1, Hext1. auto.
    + destruct (settled_monitor p n s1 (settled_same_core _ _ Hsettled Hcore))
        as (_ & Hatt2 & Hmut2 & Hext2).
      destruct Hcore as (_ & _ & _ & Hatt1 & Hmut1 & Hext1 & _).
      rewrite Hatt2, Hmut2, Hext2, Hatt1, Hmut1, Hext1. auto.
Qed.

(** C3 on a qualifying content that stays on the pasteboard because
    its TIFF entry is empty: five turns of the loop, one call. *)
Lemma corrector_fires_once_per_change_witness :
  fix_attempts (trace (final (monitor 5 1 (boot hollow_copy [] []))))
  <= fix_attempts (trace (boot hollow_copy [] [])) + 1.
Proof.
  apply (proj2 (proj2 (corrector_fires_once_per_change 1))). reflexivity.
Defined.

(** C4.  With nobody else around:
    - a successful [copy_image_only] leaves a content that
      [has_image_and_text] rejects;
    - when a tick detects a fresh qualifying content whose image data
      is there, it calls the corrector once and leaves exactly one
      entry, an image, with no plain-text identifier; the next tick
      sees this content as a change (it differs from the recorded
      snapshot), the classifier answers false on it, the corrector is
      not called, nothing is cleared or written, and no later turn of
      the loop calls the corrector either. *)
Theorem corrected_clipboard_not_refixed :
  forall (p : float) (s : State),
    env s = [] ->
    (result (copy_image_only s) = Return true ->
     result (has_image_and_text
               (Some (identifiers (pasteboard (final (copy_image_only s)))))
               (final (copy_image_only s)))
     = Return false) /\
    (matches_pattern (Some (identifiers (pasteboard s))) = true ->
     snapshot_of (pasteboard s) <> last_snapshot s ->
     truthy (lookup NSPasteboardTypeTIFF (pasteboard s))
     || truthy (lookup NSPasteboardTypePNG (pasteboard s)) = true ->
     let s1 := final (loop_body p s) in
     let s2 := final (loop_body p s1) in
     fix_attempts (trace s1) = fix_attempts (trace s) + 1 /\
     (exists t B, (t = NSPasteboardTypeTIFF \/ t = NSPasteboardTypePNG) /\
                  pasteboard s1 = [(t, B)]) /\
     has_text (identifiers (pasteboard s1)) = false /\
     snapshot_of (pasteboard s1) <> last_snapshot s1 /\
     result (has_image_and_text (Some (identifiers (pasteboard s1))) s1)
     = Return false /\
     fix_attempts (trace s2) = fix_attempts (trace s1) /\
     mutations (trace s2) = mutations (trace s1) /\
     pasteboard s2 = pasteboard s1 /\
     forall n, fix_attempts (trace (final (monitor n p s1)))
               = fix_attempts (trace s1)).
Proof.
  intros p s Hquiet. split.
  - intros Hok. rewrite (proj1 (has_image_and_text_run _ _)). f_equal.
    destruct (correction_quiet s Hquiet) as [_ Hrun].
    destruct (lookup NSPasteboardTypeTIFF (pasteboard s)) as [[|b bs]|];
      try destruct (lookup NSPasteboardTypePNG (pasteboard s)) as [[|b' bs']|];
      destruct Hrun as (Hres & Hpb & _); rewrite Hpb; try reflexivity;
      congruence.
  - intros Hmatch Hchanged Hfound s1 s2.
    assert (Hfire : fires s (Some (identifiers (pasteboard s)))
                      (text_of (pasteboard s) NSPasteboardTypeString) = true).
    { unfold fires. rewrite Hmatch. cbn [is_not_None]. rewrite !andb_true_r.
      apply not_false_iff_true. intros Hsame. apply changed_iff in Hsame.
      now apply Hchanged. }
    destruct (tick_quiet_summary p s Hquiet) as (Henv1 & Hpb1 & Hlast1 & Hatt1 & _).
    rewrite Hfire in Hpb1, Hatt1. fold s1 in Henv1, Hpb1, Hlast1, Hatt1.
    assert (Hone : exists t B,
               (t = NSPasteboardTypeTIFF \/ t = NSPasteboardTypePNG) /\
               pasteboard s1 = [(t, B)]).
    { rewrite Hpb1. unfold corrected.
      destruct (lookup NSPasteboardTypeTIFF (pasteboard s)) as [[|b bs]|];
        try destruct (lookup NSPasteboardTypePNG (pasteboard s)) as [[|b' bs']|];
        try discriminate Hfound; eauto. }
    assert (Htext : has_text (identifiers (pasteboard s1)) = false).
    { destruct Hone as (t & B & [-> | ->] & ->); reflexivity. }
    assert (Hnomatch : matches_pattern (Some (identifiers (pasteboard s1))) = false).
    { unfold matches_pattern. rewrite Htext. now rewrite andb_false_r. }
    assert (Hfresh : snapshot_of (pasteboard s1) <> last_snapshot s1).
    { rewrite Hlast1. unfold snapshot_of. intros [= Hids _].
      apply andb_prop in Hmatch. destruct Hmatch as [Hmatch _].
      apply andb_prop in Hmatch. destruct Hmatch as [_ Hmatch].
      rewrite <- Hids in Hmatch. congruence. }
    assert (Hsettled : settled s1) by (split; [assumption | now right]).
    destruct (settled_tick p s1 Hsettled) as (_ & Hpb2 & Hatt2 & Hmut2 & _).
    repeat split; try assumption.
    + rewrite (proj1 (has_image_and_text_run _ _)). now f_equal.
    + intros n. apply (settled_monitor p n s1 Hsettled).
Qed.

(** C4 on the Safari copy: the tick after the correction leaves the
    image alone. *)
Lemma corrected_clipboard_not_refixed_witness :
  fix_attempts
    (trace (final (loop_body 1 (final (loop_body 1 (boot safari_copy [] []))))))
  = fix_attempts (trace (final (loop_body 1 (boot safari_copy [] [])))).
Proof.
  destruct (corrected_clipboard_not_refixed 1 (boot safari_copy [] []) eq_refl)
    as (_ & Htick).
  destruct Htick as (_ & _ & _ & _ & _ & Hsame & _).
  - reflexivity.
  - discriminate.
  - reflexivity.
  - exact Hsame.
Defined.



(** ** Failed reads *)

Lemma failed_read_is_None (s : State) :
  read_faults s = true ->
  exists s1, get_clipboard_contents s = (Return (None, None), s1).
Proof.
  intros Hfault. destruct (read_total s) as (ty & tx & Hres & Hnone & Hiff).
  apply Hiff in Hfault. subst ty. rewrite (Hnone eq_refl) in Hres.
  unfold result in Hres. destruct (get_clipboard_contents s) as [r s1].
  cbn [fst] in Hres. subst r. now exists s1.
Qed.




(** ** File copies *)

(** C8.  On every tick whose read gives an identifier list with an
    image identifier, the plain-text identifier and a file-reference
    identifier (changed or not with respect to the recorded snapshot),
    the corrector is not called: the tick issues no extraction, no
    [clearContents] and no [setData_forType_], the pasteboard at the
    end of the tick is the one the read left, and with nobody else
    around it is the pasteboard from before the tick. *)
Theorem file_copy_left_alone :
  forall (p : float) (s : State) (l : list string) (cp : option string),
    result (get_clipboard_contents s) = Return (Some l, cp) ->
    has_image l = true ->
    has_text l = true ->
    has_file l = true ->
    fix_attempts (trace (final (loop_body p s))) = fix_attempts (trace s) /\
    mutations (trace (final (loop_body p s))) = mutations (trace s) /\
    extractions (trace (final (loop_body p s))) = extractions (trace s) /\
    pasteboard (final (loop_body p s))
    = pasteboard (final (get_clipboard_contents s)) /\
    (env s = [] -> pasteboard (final (loop_body p s)) = pasteboard s).
Proof.
  intros p s l cp Hres Himage Htext Hfile.
  unfold result in Hres.
  destruct (get_clipboard_contents s) as [r s1] eqn:Eread.
  cbn [fst] in Hres. subst r.
  assert (Hno : fires s (Some l) cp = false).
  { unfold fires, matches_pattern. rewrite Hfile. cbn [negb].
    now rewrite !andb_false_r. }
  destruct (tick_attempts p s s1 _ _ Eread) as (Hatt & _).
  destruct (tick_idle p s s1 _ _ Eread Hno) as (Hpb & _ & Hmut & Hext).
  rewrite Hno in Hatt.
  repeat split; try assumption; try lia.
  intros Hquiet. rewrite Hpb.
  destruct (read_quiet s Hquiet) as (_ & Hpb0 & _).
  unfold final in Hpb0. now rewrite Eread in Hpb0.
Qed.

(** C8 on what Finder puts on the pasteboard. *)
Lemma file_copy_left_alone_witness :
  pasteboard (final (loop_body 1 (boot finder_copy [] []))) = finder_copy /\
  mutations (trace (final (loop_body 1 (boot finder_copy [] [])))) = [].
Proof.
  destruct (file_copy_left_alone 1 (boot finder_copy [] [])
              (identifiers finder_copy) (Some "a.tiff"))
    as (_ & Hmut & _ & _ & Hpb).
  - reflexivity.
  - reflexivity.
  - reflexivity.
  - reflexivity.
  - split; [apply Hpb; reflexivity | exact Hmut].
Defined.

(** ** The command line *)

Lemma parse_args_last_interval (argv : list Arg) (v : float) :
  interval (parse_args (argv ++ [ArgInterval v])) = v.
Proof. unfold parse_args. rewrite fold_left_app. reflexivity. Qed.

Lemma parse_args_debug_keeps_interval (argv : list Arg) :
  interval (parse_args (argv ++ [ArgDebug])) = interval (parse_args argv).
Proof. unfold parse_args. rewrite fold_left_app. reflexivity. Qed.

(** What [script] hands to the loop when started with [-i v]. *)
Lemma script_enters_loop (n : nat) (v : float) (s : State) :
  script n [ArgInterval v] s
  = monitor n v (with_last None None (emit (Logged INFO (MsgRunning v)) s)).
Proof. reflexivity. Qed.

(** One turn of the loop ends in the state its tick reached, up to
    logging and sleeping. *)
Lemma one_turn (p : float) (s : State) :
  same_core (final (loop_body p s)) (final (monitor 1 p s)).
Proof.
  destruct (monitor_step 0 p s) as (s1 & Hcore & [-> | ->]); assumption.
Qed.

(** C9, as the code has it.  The poll-interval option is a float, its
    default is 1.0, and the value given on the command line reaches
    [main] as it is: nothing compares it with zero.  For every value,
    positive or not, the script starts the loop and the first tick
    reads the pasteboard and records what it read; on the Safari copy
    it calls the corrector, which leaves the image alone there. *)
Theorem interval_is_passed_unchecked :
  DEFAULT_POLL_INTERVAL = 1%float /\
  interval (parse_args []) = 1%float /\
  (forall argv v, interval (parse_args (argv ++ [ArgInterval v])) = v) /\
  (forall argv,
     interval (parse_args (argv ++ [ArgDebug])) = interval (parse_args argv)) /\
  (forall n argv s,
     script n argv s
     = main n (interval (parse_args argv))
         (if debug (parse_args argv)
          then emit (Logged DEBUG MsgDebugEnabled) (with_debug true s)
          else s)) /\
  (forall v pb,
     last_snapshot (final (script 1 [ArgInterval v] (boot pb [] [])))
     = snapshot_of pb) /\
  (forall v,
     fix_attempts (trace (final (script 1 [ArgInterval v]
                                   (boot safari_copy [] [])))) = 1 /\
     pasteboard (final (script 1 [ArgInterval v] (boot safari_copy [] [])))
     = [(NSPasteboardTypeTIFF, tiff_bytes)]).
Proof.
  split; [reflexivity|]. split; [reflexivity|].
  split; [intros; apply parse_args_last_interval|].
  split; [intros; apply parse_args_debug_keeps_interval|].
  split; [|split].
  - intros n argv s. unfold script.
    destruct (debug (parse_args argv)); reflexivity.
  - intros v pb. rewrite script_enters_loop.
    destruct (one_turn v (with_last None None
                (emit (Logged INFO (MsgRunning v)) (boot pb [] []))))
      as (_ & _ & Hlast & _).
    rewrite Hlast.
    now destruct (tick_quiet_summary v _ (eq_refl :
        env (with_last None None
               (emit (Logged INFO (MsgRunning v)) (boot pb [] []))) = []))
      as (_ & _ & Hread & _).
  - intros v. rewrite script_enters_loop.
    destruct (one_turn v (with_last None None
                (emit (Logged INFO (MsgRunning v)) (boot safari_copy [] []))))
      as (Hpb & _ & _ & Hatt & _).
    rewrite Hpb, Hatt.
    destruct (tick_quiet_summary v _ (eq_refl :
        env (with_last None None
               (emit (Logged INFO (MsgRunning v)) (boot safari_copy [] []))) = []))
      as (_ & Hcontent & _ & Hcount & _).
    rewrite Hcontent, Hcount. split; reflexivity.
Qed.

(** C9 as the spec words it fails: with [-i 0] the loop runs and polls
    back to back; with [-i -1] the first tick runs, corrects the
    pasteboard, and the script then dies on the rejected sleep. *)
Lemma nonpositive_interval_counterexample :
  (0 <? interval (parse_args [ArgInterval 0]))%float = false /\
  result (script 2 [ArgInterval 0] (boot text_copy [] [])) = Return Running /\
  trace (final (script 2 [ArgInterval 0] (boot text_copy [] [])))
  = [Logged INFO (MsgRunning 0);
     Called CallGeneralPasteboard; Called CallTypes;
     Called (CallStringForType NSPasteboardTypeString); Slept 0;
     Called CallGeneralPasteboard; Called CallTypes;
     Called (CallStringForType NSPasteboardTypeString); Slept 0] /\
  (0 <? interval (parse_args [ArgInterval (-1)]))%float = false /\
  pasteboard (final (script 2 [ArgInterval (-1)] (boot safari_copy [] [])))
  = [(NSPasteboardTypeTIFF, tiff_bytes)] /\
  result (script 2 [ArgInterval (-1)] (boot safari_copy [] []))
  = Raise (Exception "sleep length must be non-negative").
Proof. repeat split; reflexivity. Qed.

(** ** Reading the clipboard *)

(** C10.  [get_clipboard_contents] always returns a pair and never
    raises.  The first component is [None] exactly when one of its
    three pasteboard calls fails, and then the second is [None] too;
    on an undisturbed pasteboard the pair is the identifier list and
    the text, and a pasteboard without plain text gives a list with
    [None], which is not a failure: [main] looks at the first component
    only, recording the snapshot when it is a list and keeping the old
    one, without calling the corrector, when it is [None]. *)
Theorem get_clipboard_contents_total :
  forall (s : State),
    (exists ty tx,
       result (get_clipboard_contents s) = Return (ty, tx) /\
       (ty = None -> tx = None) /\
       (ty = None <-> read_faults s = true)) /\
    (read_faults s = true ->
     result (get_clipboard_contents s) = Return (None, None)) /\
    (env s = [] ->
     result (get_clipboard_contents s)
     = Return (Some (identifiers (pasteboard s)),
               text_of (pasteboard s) NSPasteboardTypeString)) /\
    (env s = [] ->
     lookup NSPasteboardTypeString (pasteboard s) = None ->
     result (get_clipboard_contents s)
     = Return (Some (identifiers (pasteboard s)), None)) /\
    (forall p ty tx,
       result (get_clipboard_contents s) = Return (ty, tx) ->
       (ty <> None -> last_snapshot (final (loop_body p s)) = (ty, tx)) /\
       (ty = None ->
        last_snapshot (final (loop_body p s)) = last_snapshot s /\
        fix_attempts (trace (final (loop_body p s)))
        = fix_attempts (trace s))).
Proof.
  intros s. split; [apply read_total|]. split; [|split; [|split]].
  - intros Hfault. destruct (failed_read_is_None s Hfault) as (s1 & Eread).
    unfold result. now rewrite Eread.
  - intros Hquiet. apply (read_quiet s Hquiet).
  - intros Hquiet Hnotext. rewrite (proj1 (read_quiet s Hquiet)).
    unfold snapshot_of, text_of. now rewrite Hnotext.
  - intros p ty tx Hres. unfold result in Hres.
    destruct (get_clipboard_contents s) as [r s1] eqn:Eread.
    cbn [fst] in Hres. subst r.
    destruct (tick_attempts p s s1 ty tx Eread) as (Hatt & Hsome & Hnone).
    split; [assumption|]. intros ->. split; [now apply Hnone|].
    unfold fires in Hatt. cbn [is_not_None] in Hatt.
    rewrite andb_false_r in Hatt. cbn in Hatt. lia.
Qed.

(** C10 on a pasteboard holding an image and no text: a list with
    [None], not a failure. *)
Lemma get_clipboard_contents_total_witness :
  result (get_clipboard_contents
            (boot [(NSPasteboardTypeTIFF, tiff_bytes)] [] []))
  = Return (Some [NSPasteboardTypeTIFF], None).
Proof.
  destruct (get_clipboard_contents_total
              (boot [(NSPasteboardTypeTIFF, tiff_bytes)] [] []))
    as (_ & _ & _ & Hnotext & _).
  apply Hnotext; reflexivity.
Defined.

(** * Further properties of the script *)

(** ** The classifier and identifiers it does not know *)

Lemma contains_unrecognised (l1 l2 : list string) (t x : string) :
  x <> t ->
  contains (l1 ++ t :: l2) x = contains (l1 ++ l2) x.
Proof.
  intros Hne. apply eq_true_iff_eq. rewrite !contains_In, !in_app_iff.
  cbn [In]. split; [intros [H|[H|H]]|intros [H|H]]; auto. congruence.
Qed.

(** X1.  Identifiers other than the five the classifier looks for do
    not count: inserting one anywhere in the list leaves the answer as
    it was.  A file-reference identifier, wherever it is inserted,
    makes the answer false. *)
Theorem has_image_and_text_ignores_other_types :
  forall (l1 l2 : list string) (t : string) (s : State),
    (recognised t = false ->
     result (has_image_and_text (Some (l1 ++ t :: l2)) s)
     = result (has_image_and_text (Some (l1 ++ l2)) s)) /\
    (t = NSPasteboardTypeFileURL \/ t = "public.file-path" ->
     result (has_image_and_text (Some (l1 ++ t :: l2)) s) = Return false).
Proof.
  intros l1 l2 t s.
  rewrite !(proj1 (has_image_and_text_run _ s)). split.
  - intros Hnew. f_equal. unfold recognised in Hnew. cbn [existsb] in Hnew.
    repeat (apply orb_false_elim in Hnew; destruct Hnew as [?H Hnew]).
    unfold matches_pattern, has_image, has_text, has_file. cbn [existsb].
    rewrite !contains_unrecognised;
      [reflexivity|
       intros Heq; subst t;
       match goal with
       | H : (?a =? ?a)%string = false |- _ =>
           rewrite String.eqb_refl in H; discriminate H
       end..].
  - intros Hfile. f_equal. apply not_true_iff_false. intros Hm.
    apply matches_pattern_In in Hm. destruct Hm as (_ & _ & Hno).
    apply Hno. rewrite !in_app_iff. cbn [In].
    destruct Hfile as [-> | ->]; auto.
Qed.

(** X1 on a Safari copy that also carries an HTML rendition. *)
Lemma has_image_and_text_ignores_other_types_witness :
  result (has_image_and_text
            (Some ([NSPasteboardTypeTIFF] ++ html_type :: [NSPasteboardTypeString]))
            (boot safari_copy [] []))
  = result (has_image_and_text
              (Some ([NSPasteboardTypeTIFF] ++ [NSPasteboardTypeString]))
              (boot safari_copy [] [])).
Proof.
  apply (has_image_and_text_ignores_other_types
           [NSPasteboardTypeTIFF] [NSPasteboardTypeString] html_type
           (boot safari_copy [] [])).
  reflexivity.
Defined.

(** ** Starting up *)

(** What [main] hands to the loop. *)
Lemma main_enters_loop (n : nat) (p : float) (s : State) :
  main n p s
  = monitor n p (with_last None None (emit (Logged INFO (MsgRunning p)) s)).
Proof. reflexivity. Qed.

(** X2.  The recorded snapshot starts as [None] (lines 171-172), so the
    first check always runs: when [main] starts on an undisturbed
    pasteboard whose identifiers match the pattern, whatever its locals
    held before, the corrector is run exactly once over any number of
    turns of the loop: line 196 is logged once, the extraction calls
    and the clear and write calls made in all are those of one run of
    [copy_image_only] on that content, and the pasteboard ends as the
    corrected one. *)
Theorem main_corrects_what_is_there_at_startup :
  forall (n : nat) (p : float) (s : State),
    env s = [] ->
    matches_pattern (Some (identifiers (pasteboard s))) = true ->
    fix_attempts (trace (final (main (S n) p s))) = fix_attempts (trace s) + 1 /\
    mutations (trace (final (main (S n) p s)))
    = mutations (trace s) ++ mutation_calls (pasteboard s) /\
    extractions (trace (final (main (S n) p s)))
    = extractions (trace s) ++ extraction_calls (pasteboard s) /\
    pasteboard (final (main (S n) p s)) = corrected (pasteboard s).
Proof.
  intros n p s Hquiet Hmatch. rewrite main_enters_loop.
  set (s0 := with_last None None (emit (Logged INFO (MsgRunning p)) s)).
  assert (Hquiet0 : env s0 = []) by exact Hquiet.
  assert (Hfire : fires s0 (Some (identifiers (pasteboard s0)))
                    (text_of (pasteboard s0) NSPasteboardTypeString) = true).
  { unfold fires. cbn [s0 with_last emit pasteboard last_types types_eqb negb
                       orb is_not_None andb]. exact Hmatch. }
  destruct (tick_quiet_summary p s0 Hquiet0) as (_ & Hpb & _ & Hatt & _).
  destruct (tick_quiet_calls p s0 Hquiet0) as (Hmut & Hext).
  rewrite Hfire in Hpb, Hatt, Hmut, Hext.
  pose proof (quiet_tick_settles p s0 Hquiet0) as Hsettled.
  assert (Hstart : fix_attempts (trace s0) = fix_attempts (trace s) /\
                   mutations (trace s0) = mutations (trace s) /\
                   extractions (trace s0) = extractions (trace s)).
  { unfold s0. cbn [with_last emit trace]. tidy. repeat split; reflexivity. }
  destruct Hstart as (Hstart & Hstartm & Hstartx).
  change (pasteboard s0) with (pasteboard s) in Hpb, Hmut, Hext.
  destruct (monitor_step n p s0) as (s1 & Hcore & [-> | ->]).
  - destruct Hcore as (Hpb1 & _ & _ & Hatt1 & Hmut1 & Hext1 & _).
    rewrite Hpb1, Hatt1, Hmut1, Hext1, Hpb, Hatt, Hmut, Hext,
      Hstart, Hstartm, Hstartx. repeat split; reflexivity.
  - destruct (settled_monitor p n s1 (settled_same_core _ _ Hsettled Hcore))
      as (Hpb2 & Hatt2 & Hmut2 & Hext2).
    destruct Hcore as (Hpb1 & _ & _ & Hatt1 & Hmut1 & Hext1 & _).
    rewrite Hpb2, Hatt2, Hmut2, Hext2, Hpb1, Hatt1, Hmut1, Hext1,
      Hpb, Hatt, Hmut, Hext, Hstart, Hstartm, Hstartx.
    repeat split; reflexivity.
Qed.

(** X2 on a Safari copy made before the script was started. *)
Lemma main_corrects_what_is_there_at_startup_witness :
  pasteboard (final (main 3 1 (boot safari_copy [] [])))
  = corrected (pasteboard (boot safari_copy [] [])).
Proof.
  apply (main_corrects_what_is_there_at_startup 2 1 (boot safari_copy [] []));
    reflexivity.
Defined.

(** X3.  A pasteboard whose identifiers do not match the pattern is
    never modified: while nobody else touches it, however many turns
    the loop makes, [main] calls the corrector not once, issues no
    [clearContents] and no [setData_forType_], and the content stays
    what it was. *)
Theorem main_leaves_other_content_alone :
  forall (n : nat) (p : float) (s : State),
    env s = [] ->
    matches_pattern (Some (identifiers (pasteboard s))) = false ->
    pasteboard (final (main n p s)) = pasteboard s /\
    fix_attempts (trace (final (main n p s))) = fix_attempts (trace s) /\
    mutations (trace (final (main n p s))) = mutations (trace s).
Proof.
  intros n p s Hquiet Hno. rewrite main_enters_loop.
  set (s0 := with_last None None (emit (Logged INFO (MsgRunning p)) s)).
  assert (Hsettled : settled s0) by (split; [exact Hquiet | right; exact Hno]).
  destruct (settled_monitor p n s0 Hsettled) as (Hpb & Hatt & Hmut & _).
  rewrite Hpb, Hatt, Hmut. unfold s0. cbn [with_last emit trace pasteboard].
  tidy. repeat split; reflexivity.
Qed.

(** X3 on a plain-text copy. *)
Lemma main_leaves_other_content_alone_witness :
  pasteboard (final (main 4 1 (boot text_copy [] []))) = text_copy.
Proof.
  apply (main_leaves_other_content_alone 4 1 (boot text_copy [] []));
    reflexivity.
Defined.

(** ** A copy made between two ticks *)

(** A content put there by another writer just before the read is
    read like a content that was there all along. *)
Lemma read_after_rewrite (s : State) (pb' : Pasteboard) (rest : list EnvEvent) :
  env s = Rewrite pb' :: rest ->
  get_clipboard_contents s
  = get_clipboard_contents (with_world pb' (Quiet :: rest) s).
Proof.
  destruct s as [pb e sg dbg tr lt lx]. cbn [env]. intros ->. reflexivity.
Qed.

Lemma read_after_quiet (s : State) :
  env s = [Quiet] ->
  get_clipboard_contents s = get_clipboard_contents (with_world (pasteboard s) [] s).
Proof.
  destruct s as [pb e sg dbg tr lt lx]. cbn [env]. intros ->. reflexivity.
Qed.

Lemma tick_after_rewrite (p : float) (s : State) (pb' : Pasteboard) :
  env s = [Rewrite pb'] ->
  loop_body p s = loop_body p (with_world pb' [] s).
Proof.
  intros Henv. unfold loop_body, bind.
  rewrite (read_after_rewrite s pb' [] Henv).
  rewrite (read_after_quiet (with_world pb' [Quiet] s) eq_refl).
  destruct s as [pb e sg dbg tr lt lx]. reflexivity.
Qed.

(** X4.  A copy made by another application between two ticks is dealt
    with at the next tick.  If the new content differs from the
    recorded snapshot and matches the pattern, that tick runs the
    corrector exactly once (line 196 logged once, the pasteboard asked
    for by the read and by the one run, the extraction, clear and
    write calls those of one run on the new content) and leaves the
    corrected content; if it does not match, the tick does not run it
    (no line 196, one request for the pasteboard, no extraction, clear
    or write call) and leaves the content as it is.  Either way the
    new content becomes the recorded snapshot. *)
Theorem fresh_copy_is_handled_at_next_tick :
  forall (p : float) (s : State) (pb' : Pasteboard),
    env s = [Rewrite pb'] ->
    snapshot_of pb' <> last_snapshot s ->
    (matches_pattern (Some (identifiers pb')) = true ->
     fix_attempts (trace (final (loop_body p s))) = fix_attempts (trace s) + 1 /\
     handles (trace (final (loop_body p s)))
     = handles (trace s)
       ++ [Called CallGeneralPasteboard; Called CallGeneralPasteboard] /\
     mutations (trace (final (loop_body p s)))
     = mutations (trace s) ++ mutation_calls pb' /\
     extractions (trace (final (loop_body p s)))
     = extractions (trace s) ++ extraction_calls pb' /\
     pasteboard (final (loop_body p s)) = corrected pb') /\
    (matches_pattern (Some (identifiers pb')) = false ->
     fix_attempts (trace (final (loop_body p s))) = fix_attempts (trace s) /\
     handles (trace (final (loop_body p s)))
     = handles (trace s) ++ [Called CallGeneralPasteboard] /\
     mutations (trace (final (loop_body p s))) = mutations (trace s) /\
     extractions (trace (final (loop_body p s))) = extractions (trace s) /\
     pasteboard (final (loop_body p s)) = pb') /\
    last_snapshot (final (loop_body p s)) = snapshot_of pb'.
Proof.
  intros p s pb' Henv Hfresh. rewrite (tick_after_rewrite p s pb' Henv).
  set (s0 := with_world pb' [] s).
  destruct (tick_quiet_summary p s0 eq_refl) as (_ & Hpb & Hlast & Hatt & _).
  destruct (tick_quiet_calls p s0 eq_refl) as (Hmut & Hext).
  destruct (read_quiet s0 eq_refl) as (Hres & _).
  unfold result, snapshot_of in Hres.
  destruct (get_clipboard_contents s0) as [r s1] eqn:Eread.
  cbn [fst] in Hres. subst r.
  destruct (tick_calls p s0 s1 _ _ Eread) as (Hh & _).
  assert (Hchanged : negb (types_eqb (Some (identifiers pb')) (last_types s))
                     || negb (text_eqb (text_of pb' NSPasteboardTypeString)
                                (last_plain_text s)) = true).
  { apply not_false_iff_true. intros Hsame. apply changed_iff in Hsame.
    now apply Hfresh. }
  unfold fires in Hpb, Hatt, Hmut, Hext, Hh.
  cbn [s0 with_world pasteboard last_types last_plain_text trace is_not_None]
    in Hpb, Hatt, Hlast, Hmut, Hext, Hh.
  rewrite Hchanged in Hpb, Hatt, Hmut, Hext, Hh.
  cbn [andb] in Hpb, Hatt, Hmut, Hext, Hh.
  split; [|split].
  - intros Hm. rewrite Hm in Hpb, Hatt, Hmut, Hext, Hh.
    repeat split; assumption.
  - intros Hm. rewrite Hm in Hpb, Hatt, Hmut, Hext, Hh.
    rewrite app_nil_r in Hmut, Hext.
    repeat split; try assumption. lia.
  - exact Hlast.
Qed.

(** X4 when Safari puts an image and its URL on an empty pasteboard
    while the script sleeps. *)
Lemma fresh_copy_is_handled_at_next_tick_witness :
  pasteboard (final (loop_body 1 (boot [] [Rewrite safari_copy] [])))
  = corrected safari_copy.
Proof.
  destruct (fresh_copy_is_handled_at_next_tick 1
              (boot [] [Rewrite safari_copy] []) safari_copy)
    as (Hmatch & _).
  - reflexivity.
  - discriminate.
  - apply Hmatch. reflexivity.
Defined.

(** ** The stop signal and the pace of the loop *)

Lemma deaf_ret {A} (a : A) : deaf (ret a).
Proof. intros s. reflexivity. Qed.

Lemma deaf_bind {A B} (c : M A) (k : A -> M B) :
  deaf c -> (forall a, deaf (k a)) -> deaf (bind c k).
Proof.
  intros Hc Hk s. specialize (Hc s). unfold bind, final in *.
  destruct (c s) as [[a|e] s1]; cbn [snd] in *; [|assumption].
  rewrite <- Hc. apply Hk.
Qed.

Lemma deaf_try_except_Exception {A} (body : M A) (handler : string -> M A) :
  deaf body -> (forall e, deaf (handler e)) ->
  deaf (try_except_Exception body handler).
Proof.
  intros Hb Hh s. specialize (Hb s). unfold try_except_Exception, final in *.
  destruct (body s) as [[a|[e|]] s1]; cbn [snd] in *; try assumption.
  rewrite <- Hb. apply Hh.
Qed.

Lemma deaf_external {A} (c : PbCall) (serve : Pasteboard -> A * Pasteboard) :
  deaf (external c serve).
Proof.
  intros s. unfold external, final. cbn.
  destruct (env s) as [|[|why|content] rest]; cbn;
    try destruct (serve _); reflexivity.
Qed.

Lemma deaf_external_write {A} (c : PbCall)
  (serve : Pasteboard -> A * Pasteboard) (refused : A) :
  deaf (external_write c serve refused).
Proof.
  intros s. unfold external_write, final. cbn.
  destruct (env s) as [|[|why|content] rest]; cbn;
    try destruct (serve _); reflexivity.
Qed.

Lemma deaf_log_info (msg : Message) : deaf (log_info msg).
Proof. intros s. reflexivity. Qed.

Lemma deaf_log_error (msg : Message) : deaf (log_error msg).
Proof. intros s. reflexivity. Qed.

Lemma deaf_log_debug (msg : Message) : deaf (log_debug msg).
Proof. intros s. cbn. now destruct (debug_enabled s). Qed.

Lemma deaf_for_each {A} (l : list A) (body : A -> M unit) :
  (forall x, deaf (body x)) -> deaf (for_each l body).
Proof.
  intros Hb. induction l as [|x rest IH]; cbn [for_each].
  - apply deaf_ret.
  - apply deaf_bind; [apply Hb | intros _; exact IH].
Qed.

Ltac deafen :=
  repeat first
    [ apply deaf_ret
    | apply deaf_log_info
    | apply deaf_log_error
    | apply deaf_log_debug
    | apply deaf_external
    | apply deaf_external_write
    | apply deaf_bind; [|intros ?]
    | apply deaf_try_except_Exception; [|intros ?]
    | apply deaf_for_each; intros ?
    | match goal with
      | |- deaf (match ?x with _ => _ end) => destruct x
      end ].

Lemma read_is_deaf : deaf get_clipboard_contents.
Proof. unfold get_clipboard_contents, generalPasteboard, types, stringForType_.
       deafen. Qed.

Lemma correction_is_deaf : deaf copy_image_only.
Proof. unfold copy_image_only, generalPasteboard, dataForType_,
         clearContents, setData_forType_. deafen. Qed.

Lemma correction_never_sleeps : silent is_sleep copy_image_only.
Proof. unfold copy_image_only, generalPasteboard, dataForType_,
         clearContents, setData_forType_. silence. Qed.

Ltac meet_corrector_before_sleep :=
  match goal with
  | |- context [copy_image_only ?X] =>
      let H := fresh "Hnosleep" in
      let D := fresh "Hdeaf" in
      let R := fresh "Hreturns" in
      let E := fresh "Ecopy" in
      pose proof (proj1 (correction_never_sleeps X)) as H;
      pose proof (correction_is_deaf X) as D;
      destruct (correction_returns X) as [? R];
      unfold final, result in H, D, R;
      destruct (copy_image_only X) as [? ?] eqn:E;
      cbn [fst snd trace signals] in H, D, R; subst
  end.

(** Whatever the environment does, a tick is some work that neither
    sleeps nor hears the stop signal, followed by the sleep of line
    210. *)
Lemma tick_then_sleep (p : float) (s : State) :
  exists s4,
    loop_body p s = time_sleep p s4 /\
    signals s4 = signals s /\
    sleeps (trace s4) = sleeps (trace s).
Proof.
  destruct (read_total s) as (ct & cp & Hres & _).
  assert (Hsl : silent is_sleep get_clipboard_contents)
    by (apply read_is_silent; reflexivity).
  destruct (Hsl s) as (Hsleeps & _). clear Hsl.
  pose proof (read_is_deaf s) as Hsig.
  unfold result, final in *.
  destruct (get_clipboard_contents s) as [r s1] eqn:Eread.
  cbn [fst snd] in *. subst r.
  unfold sleeps. rewrite <- Hsleeps, <- Hsig. clear Hsleeps Hsig.
  destruct s1 as [pb e sg dbg tr lt lx].
  unfold loop_body, has_image_and_text, bind, ret, log_info, log_debug,
    log_isEnabledFor_DEBUG, print, set_last, emit, with_last.
  rewrite Eread.
  cbn -[has_image has_text has_file types_eqb text_eqb time_sleep
        copy_image_only get_clipboard_contents filter separator].
  destruct dbg;
    repeat (first [meet_corrector_before_sleep | pick];
            cbn -[has_image has_text has_file types_eqb text_eqb time_sleep
                  copy_image_only get_clipboard_contents filter separator]);
    eexists; (split; [reflexivity|]);
    cbn [signals trace]; try rewrite Hnosleep;
    rewrite ?filter_app; cbn [filter is_sleep];
    rewrite ?app_nil_r; split; congruence.
Qed.





(** X7.  With a poll interval that [time.sleep] rejects, for whichever
    of its three reasons, and whose five-fold it rejects too, the
    script does not survive its first turn: the tick itself runs in
    full, then the sleep of line 210 raises, the handler logs that
    exception, its own sleep of line 220 raises in turn, and this
    second exception leaves [main]; the process has not slept at all. *)
Theorem rejected_interval_ends_the_loop :
  forall (n : nat) (p : float) (s : State) (why why5 : string),
    sleep_rejection p = Some why ->
    sleep_rejection (p * 5) = Some why5 ->
    result (main (S n) p s) = Raise (Exception why5) /\
    sleeps (trace (final (main (S n) p s))) = sleeps (trace s) /\
    exists s4,
      loop_body p (with_last None None (emit (Logged INFO (MsgRunning p)) s))
      = (Raise (Exception why), s4) /\
      final (main (S n) p s) = emit (Logged ERROR (MsgUnexpected why)) s4.
Proof.
  intros n p s why why5 Hp Hp5. rewrite main_enters_loop, monitor_S.
  destruct (tick_then_sleep p
              (with_last None None (emit (Logged INFO (MsgRunning p)) s)))
    as (s4 & -> & _ & Hsl4).
  unfold time_sleep, raise. rewrite Hp, Hp5. cbn [fst snd].
  split; [reflexivity|]. split.
  - unfold final. cbn [snd emit trace]. unfold sleeps in *.
    rewrite filter_app, Hsl4. cbn [with_last emit trace].
    rewrite filter_app. cbn [filter is_sleep]. now rewrite !app_nil_r.
  - exists s4. split; reflexivity.
Qed.

(** X7 with an interval that is not a number. *)
Lemma rejected_interval_ends_the_loop_witness :
  result (main 3 nan (boot safari_copy [] []))
  = Raise (Exception "Invalid value NaN (not a number)").
Proof.
  apply (rejected_interval_ends_the_loop 2 nan (boot safari_copy [] [])
           "Invalid value NaN (not a number)");
    reflexivity.
Defined.

(** ** The corrector under access errors and other writers *)






Lemma external_cases_alone {A} (c : PbCall)
  (serve : Pasteboard -> A * Pasteboard) (s : State) :
  existsb is_rewrite (env s) = false ->
  existsb is_rewrite (tl (env s)) = false /\
  ((exists why,
      external c serve s
      = (Raise (Exception why),
         with_world (pasteboard s) (tl (env s)) (emit (Called c) s))) \/
   external c serve s
   = (Return (fst (serve (pasteboard s))),
      with_world (snd (serve (pasteboard s))) (tl (env s))
        (emit (Called c) s))).
Proof.
  unfold external. cbn [env emit pasteboard].
  destruct (env s) as [|[|why|content] rest]; cbn [tl existsb is_rewrite orb];
    intros Halone; try discriminate Halone; (split; [assumption|]).
  - right. now destruct (serve (pasteboard s)).
  - right. now destruct (serve (pasteboard s)).
  - left. now exists why.
Qed.

Lemma external_write_cases_alone {A} (c : PbCall)
  (serve : Pasteboard -> A * Pasteboard) (refused : A) (s : State) :
  existsb is_rewrite (env s) = false ->
  existsb is_rewrite (tl (env s)) = false /\
  ((exists why,
      external_write c serve refused s
      = (Raise (Exception why),
         with_world (pasteboard s) (tl (env s)) (emit (Called c) s))) \/
   external_write c serve refused s
   = (Return (fst (serve (pasteboard s))),
      with_world (snd (serve (pasteboard s))) (tl (env s))
        (emit (Called c) s))).
Proof.
  unfold external_write. cbn [env emit pasteboard].
  destruct (env s) as [|[|why|content] rest]; cbn [tl existsb is_rewrite orb];
    intros Halone; try discriminate Halone; (split; [assumption|]).
  - right. now destruct (serve (pasteboard s)).
  - right. now destruct (serve (pasteboard s)).
  - left. now exists why.
Qed.

Ltac call_alone :=
  match goal with
  | Ha : existsb is_rewrite ?e = false |- context [external ?c ?f ?st] =>
      lazymatch st with
      | context [external _ _ _] => fail
      | _ => idtac
      end;
      let H := fresh "Ecall" in
      let Hn := fresh "Halone" in
      let why := fresh "why" in
      destruct (external_cases_alone c f st Ha) as (Hn & [(why & H) | H]);
      rewrite H; clear H Ha
  | Ha : existsb is_rewrite ?e = false
    |- context [external_write ?c ?f ?r ?st] =>
      lazymatch st with
      | context [external _ _ _] => fail
      | _ => idtac
      end;
      let H := fresh "Ecall" in
      let Hn := fresh "Halone" in
      let why := fresh "why" in
      destruct (external_write_cases_alone c f r st Ha)
        as (Hn & [(why & H) | H]);
      rewrite H; clear H Ha
  end.

(** X9.  While no other writer interferes, [copy_image_only] leaves the
    pasteboard in one of three states and says which: the image alone,
    with the bytes that were stored under its identifier, and the
    answer is [True]; the content as it was, and the answer is
    [False]; or empty, the answer is [False] and an error has been
    logged (the write failed after the clear). *)
Theorem copy_image_only_three_outcomes :
  forall (s : State),
    alone s ->
    (result (copy_image_only s) = Return true /\
     exists t B,
       (t = NSPasteboardTypeTIFF \/ t = NSPasteboardTypePNG) /\
       lookup t (pasteboard s) = Some B /\
       pasteboard (final (copy_image_only s)) = [(t, B)]) \/
    (result (copy_image_only s) = Return false /\
     pasteboard (final (copy_image_only s)) = pasteboard s) \/
    (result (copy_image_only s) = Return false /\
     pasteboard (final (copy_image_only s)) = [] /\
     exists e, errors (trace (final (copy_image_only s)))
               = errors (trace s) ++ [Logged ERROR (MsgModifyError e)]).
Proof.
  intros s Halone. unfold alone in Halone.
  unfold copy_image_only, generalPasteboard, dataForType_, clearContents,
    setData_forType_, try_except_Exception, bind, ret, log_info, log_error,
    log_debug, result, final, errors.
  cbn [for_each]. unfold bind, ret.
  repeat (step_calls;
          first [ call_alone
                | match goal with
                  | |- context [truthy (lookup ?t ?pb)] =>
                      destruct (lookup t pb) as [[|? ?]|] eqn:?
                  | |- context [match lookup ?t ?pb with _ => _ end] =>
                      destruct (lookup t pb) as [[|? ?]|] eqn:?
                  end ]);
    step_calls;
    try destruct (debug_enabled s);
    cbn [trace emit with_world pasteboard fst snd];
    rewrite ?filter_app; cbn [filter is_error app];
    rewrite ?app_nil_r, <- ?app_assoc; cbn [app];
    first
      [ right; left; split; reflexivity
      | right; right; split; [reflexivity|split; [reflexivity|]];
        eexists; reflexivity
      | left; split; [reflexivity|]; eexists; eexists;
        (split; [|split; [eassumption|reflexivity]]); auto ].
Qed.

(** X9 on the Safari copy with a refused write. *)
Lemma copy_image_only_three_outcomes_witness :
  (result (copy_image_only (boot safari_copy [Quiet; Quiet; Quiet; Fault "busy"] []))
   = Return true /\
   exists t B,
     (t = NSPasteboardTypeTIFF \/ t = NSPasteboardTypePNG) /\
     lookup t (pasteboard (boot safari_copy [Quiet; Quiet; Quiet; Fault "busy"] []))
     = Some B /\
     pasteboard (final (copy_image_only
        (boot safari_copy [Quiet; Quiet; Quiet; Fault "busy"] []))) = [(t, B)]) \/
  (result (copy_image_only (boot safari_copy [Quiet; Quiet; Quiet; Fault "busy"] []))
   = Return false /\
   pasteboard (final (copy_image_only
      (boot safari_copy [Quiet; Quiet; Quiet; Fault "busy"] [])))
   = pasteboard (boot safari_copy [Quiet; Quiet; Quiet; Fault "busy"] [])) \/
  (result (copy_image_only (boot safari_copy [Quiet; Quiet; Quiet; Fault "busy"] []))
   = Return false /\
   pasteboard (final (copy_image_only
      (boot safari_copy [Quiet; Quiet; Quiet; Fault "busy"] []))) = [] /\
   exists e,
     errors (trace (final (copy_image_only
        (boot safari_copy [Quiet; Quiet; Quiet; Fault "busy"] []))))
     = errors (trace (boot safari_copy [Quiet; Quiet; Quiet; Fault "busy"] []))
       ++ [Logged ERROR (MsgModifyError e)]).
Proof.
  apply (copy_image_only_three_outcomes
           (boot safari_copy [Quiet; Quiet; Quiet; Fault "busy"] [])).
  reflexivity.
Defined.

(** ** Reading is only reading *)

(** X10.  [get_clipboard_contents] only reads: whatever happens it
    issues no extraction, no clear and no write, does not sleep and
    does not touch the recorded snapshot; while no other writer
    interferes the pasteboard is what it was; and it logs one error
    (line 68) when one of its calls fails and none otherwise. *)
Theorem get_clipboard_contents_only_reads :
  forall (s : State),
    mutations (trace (final (get_clipboard_contents s))) = mutations (trace s) /\
    extractions (trace (final (get_clipboard_contents s)))
    = extractions (trace s) /\
    sleeps (trace (final (get_clipboard_contents s))) = sleeps (trace s) /\
    last_snapshot (final (get_clipboard_contents s)) = last_snapshot s /\
    (alone s ->
     pasteboard (final (get_clipboard_contents s)) = pasteboard s) /\
    (read_faults s = true ->
     exists e, errors (trace (final (get_clipboard_contents s)))
               = errors (trace s) ++ [Logged ERROR (MsgAccessError e)]) /\
    (read_faults s = false ->
     errors (trace (final (get_clipboard_contents s))) = errors (trace s)).
Proof.
  intros s.
  split; [apply (read_is_silent is_mutation); reflexivity|].
  split; [apply (read_is_silent is_extraction); reflexivity|].
  split; [apply (read_is_silent is_sleep); reflexivity|].
  split.
  { destruct (read_is_silent nothing eq_refl eq_refl eq_refl
                (fun _ => eq_refl) s) as (_ & Hlt & Hlx & _).
    unfold last_snapshot. now rewrite Hlt, Hlx. }
  destruct s as [pb e sg dbg tr lt lx]. unfold read_faults, alone, errors.
  cbn [env pasteboard trace].
  destruct e as [|[|w1|c1] [|[|w2|c2] [|[|w3|c3] e]]];
    cbn [firstn existsb is_fault is_rewrite orb];
    run; rewrite ?filter_app; cbn [filter is_error app];
    rewrite ?app_nil_r, <- ?app_assoc; cbn [app];
    (split; [intros Ha; first [discriminate Ha | reflexivity]|]);
    (split; intros Hf; first [discriminate Hf | reflexivity
                             | eexists; reflexivity]).
Qed.

(** X10 when the second call is refused. *)
Lemma get_clipboard_contents_only_reads_witness :
  exists e,
    errors (trace (final (get_clipboard_contents
       (boot safari_copy [Quiet; Fault "denied"] []))))
    = errors (trace (boot safari_copy [Quiet; Fault "denied"] []))
      ++ [Logged ERROR (MsgAccessError e)].
Proof.
  destruct (get_clipboard_contents_only_reads
              (boot safari_copy [Quiet; Fault "denied"] []))
    as (_ & _ & _ & _ & _ & Hfault & _).
  apply Hfault. reflexivity.
Defined.

(** ** The debug flag *)

Lemma audible_app (t u : list Action) :
  audible (t ++ u) = audible t ++ audible u.
Proof. apply filter_app. Qed.

Lemma same_but_diagnostics_emit (a : Action) (s s' : State) :
  same_but_diagnostics s s' ->
  same_but_diagnostics (emit a s) (emit a s').
Proof.
  intros (Hpb & Henv & Hsg & Hlt & Hlx & Htr). unfold same_but_diagnostics.
  cbn [emit pasteboard env signals last_types last_plain_text trace].
  rewrite !audible_app, Htr. repeat split; assumption.
Qed.

Lemma same_but_diagnostics_chatter_l (a : Action) (s s' : State) :
  is_chatter a = true ->
  same_but_diagnostics s s' -> same_but_diagnostics (emit a s) s'.
Proof.
  intros Ha (Hpb & Henv & Hsg & Hlt & Hlx & Htr). unfold same_but_diagnostics.
  cbn [emit pasteboard env signals last_types last_plain_text trace].
  rewrite audible_app. unfold audible at 3. cbn [filter]. rewrite Ha.
  cbn [negb]. rewrite app_nil_r. repeat split; assumption.
Qed.

Lemma same_but_diagnostics_chatter_r (a : Action) (s s' : State) :
  is_chatter a = true ->
  same_but_diagnostics s s' -> same_but_diagnostics s (emit a s').
Proof.
  intros Ha (Hpb & Henv & Hsg & Hlt & Hlx & Htr). unfold same_but_diagnostics.
  cbn [emit pasteboard env signals last_types last_plain_text trace].
  rewrite audible_app. unfold audible at 2. cbn [filter]. rewrite Ha.
  cbn [negb]. rewrite app_nil_r. repeat split; assumption.
Qed.

Lemma blind_ret {A} (a : A) : blind (ret a).
Proof. intros s s' H. now split. Qed.

Lemma blind_bind {A B} (c : M A) (k : A -> M B) :
  blind c -> (forall a, blind (k a)) -> blind (bind c k).
Proof.
  intros Hc Hk s s' Hs. destruct (Hc s s' Hs) as (Hres & Hfin).
  unfold bind, result, final in *.
  destruct (c s) as [[a|e] s1], (c s') as [[a'|e'] s1'];
    cbn [fst snd] in *; try discriminate Hres.
  - injection Hres as ->. exact (Hk a s1 s1' Hfin).
  - injection Hres as ->. now split.
Qed.

Lemma blind_try_except_Exception {A} (body : M A) (handler : string -> M A) :
  blind body -> (forall e, blind (handler e)) ->
  blind (try_except_Exception body handler).
Proof.
  intros Hb Hh s s' Hs. destruct (Hb s s' Hs) as (Hres & Hfin).
  unfold try_except_Exception, result, final in *.
  destruct (body s) as [[a|[e|]] s1], (body s') as [[a'|[e'|]] s1'];
    cbn [fst snd] in *; try discriminate Hres.
  - now split.
  - injection Hres as ->. exact (Hh e s1 s1' Hfin).
  - now split.
Qed.

Lemma blind_try_except {A} (body on_interrupt : M A)
  (on_exception : string -> M A) :
  blind body -> blind on_interrupt -> (forall e, blind (on_exception e)) ->
  blind (try_except body on_interrupt on_exception).
Proof.
  intros Hb Hi Hh s s' Hs. destruct (Hb s s' Hs) as (Hres & Hfin).
  unfold try_except, result, final in *.
  destruct (body s) as [[a|[e|]] s1], (body s') as [[a'|[e'|]] s1'];
    cbn [fst snd] in *; try discriminate Hres.
  - now split.
  - injection Hres as ->. exact (Hh e s1 s1' Hfin).
  - exact (Hi s1 s1' Hfin).
Qed.

Lemma blind_external {A} (c : PbCall) (serve : Pasteboard -> A * Pasteboard) :
  blind (external c serve).
Proof.
  intros s s' Hs.
  pose proof (same_but_diagnostics_emit (Called c) s s' Hs)
    as (Hpb & Henv & Hsg & Hlt & Hlx & Htr).
  unfold external, result, final. cbv zeta. rewrite Henv, Hpb.
  destruct (env (emit (Called c) s)) as [|[|why|content] rest];
    try destruct (serve _); cbn [fst snd]; (split; [reflexivity|]);
    unfold same_but_diagnostics;
    cbn [with_world pasteboard env signals last_types last_plain_text trace];
    repeat split; assumption.
Qed.

Lemma blind_external_write {A} (c : PbCall)
  (serve : Pasteboard -> A * Pasteboard) (refused : A) :
  blind (external_write c serve refused).
Proof.
  intros s s' Hs.
  pose proof (same_but_diagnostics_emit (Called c) s s' Hs)
    as (Hpb & Henv & Hsg & Hlt & Hlx & Htr).
  unfold external_write, result, final. cbv zeta. rewrite Henv, Hpb.
  destruct (env (emit (Called c) s)) as [|[|why|content] rest];
    try destruct (serve _); cbn [fst snd]; (split; [reflexivity|]);
    unfold same_but_diagnostics;
    cbn [with_world pasteboard env signals last_types last_plain_text trace];
    repeat split; assumption.
Qed.

Lemma blind_log_info (msg : Message) : blind (log_info msg).
Proof.
  intros s s' Hs. split; [reflexivity|].
  now apply same_but_diagnostics_emit.
Qed.

Lemma blind_log_error (msg : Message) : blind (log_error msg).
Proof.
  intros s s' Hs. split; [reflexivity|].
  now apply same_but_diagnostics_emit.
Qed.

Lemma blind_log_debug (msg : Message) : blind (log_debug msg).
Proof.
  intros s s' Hs. split; [reflexivity|]. unfold log_debug, final. cbn [snd].
  destruct (debug_enabled s), (debug_enabled s');
    repeat first [ apply same_but_diagnostics_chatter_l; [reflexivity|]
                 | apply same_but_diagnostics_chatter_r; [reflexivity|] ];
    assumption.
Qed.

(** Lines 188-189 followed by anything blind. *)
Lemma blind_separator {B} (line : string) (k : M B) :
  blind k ->
  blind (bind log_isEnabledFor_DEBUG
           (fun dbg => bind (if dbg then print line else ret tt)
                         (fun _ => k))).
Proof.
  intros Hk s s' Hs. unfold bind, log_isEnabledFor_DEBUG, print, ret.
  destruct (debug_enabled s), (debug_enabled s'); apply Hk;
    repeat first [ apply same_but_diagnostics_chatter_l; [reflexivity|]
                 | apply same_but_diagnostics_chatter_r; [reflexivity|] ];
    assumption.
Qed.

Lemma blind_set_last (ty : option (list string)) (tx : option string) :
  blind (set_last ty tx).
Proof.
  intros s s' (Hpb & Henv & Hsg & Hlt & Hlx & Htr). split; [reflexivity|].
  unfold same_but_diagnostics. cbn. repeat split; assumption.
Qed.

Lemma blind_time_sleep (secs : float) : blind (time_sleep secs).
Proof.
  intros s s' Hs.
  pose proof (same_but_diagnostics_emit (Slept secs) s s' Hs)
    as (Hpb & Henv & Hsg & Hlt & Hlx & Htr).
  unfold time_sleep, raise, result, final.
  destruct (sleep_rejection secs); [now split|]. cbv zeta. rewrite Hsg.
  destruct (signals (emit (Slept secs) s)) as [|[|] rest] eqn:Esig;
    cbn [fst snd];
    (split; [reflexivity|]); unfold same_but_diagnostics;
    cbn [with_signals pasteboard env signals last_types last_plain_text trace];
    repeat split; congruence.
Qed.

Lemma blind_for_each {A} (l : list A) (body : A -> M unit) :
  (forall x, blind (body x)) -> blind (for_each l body).
Proof.
  intros Hb. induction l as [|x rest IH]; cbn [for_each].
  - apply blind_ret.
  - apply blind_bind; [apply Hb | intros _; exact IH].
Qed.

(** The comparison of line 183 reads the locals only. *)
Lemma blind_changed (ct : option (list string)) (cp : option string) :
  blind (fun s =>
           (Return (negb (types_eqb ct (last_types s))
                    || negb (text_eqb cp (last_plain_text s))), s)).
Proof.
  intros s s' Hs. pose proof Hs as (_ & _ & _ & Hlt & Hlx & _).
  unfold result, final. cbn [fst snd]. rewrite Hlt, Hlx. now split.
Qed.

Ltac blindfold :=
  repeat first
    [ apply blind_ret
    | apply blind_log_info
    | apply blind_log_error
    | apply blind_log_debug
    | apply blind_external
    | apply blind_external_write
    | apply blind_set_last
    | apply blind_time_sleep
    | apply blind_changed
    | apply blind_separator
    | apply blind_bind; [|intros ?]
    | apply blind_try_except_Exception; [|intros ?]
    | apply blind_try_except; [| |intros ?]
    | apply blind_for_each; intros ?
    | match goal with
      | |- blind (match ?x with _ => _ end) => destruct x
      end ].

Lemma blind_get_clipboard_contents : blind get_clipboard_contents.
Proof. unfold get_clipboard_contents, generalPasteboard, types, stringForType_.
       blindfold. Qed.

Lemma blind_has_image_and_text (ty : option (list string)) :
  blind (has_image_and_text ty).
Proof. unfold has_image_and_text. blindfold. Qed.

Lemma blind_copy_image_only : blind copy_image_only.
Proof. unfold copy_image_only, generalPasteboard, dataForType_,
         clearContents, setData_forType_. blindfold. Qed.

Lemma blind_loop_body (p : float) : blind (loop_body p).
Proof.
  unfold loop_body.
  apply blind_bind; [apply blind_get_clipboard_contents|intros [ct cp]].
  apply blind_bind; [apply blind_changed|intros changed].
  apply blind_bind; [|intros _; blindfold].
  destruct (changed && is_not_None ct); [|apply blind_ret].
  apply blind_separator.
  apply blind_bind; [apply blind_log_debug|intros _].
  apply blind_bind; [apply blind_log_debug|intros _].
  apply blind_bind; [apply blind_has_image_and_text|intros matched].
  destruct matched; [|apply blind_log_debug].
  apply blind_bind; [apply blind_log_info|intros _].
  apply blind_bind; [apply blind_copy_image_only|intros _].
  apply blind_ret.
Qed.

Lemma blind_monitor (n : nat) (p : float) : blind (monitor n p).
Proof.
  induction n as [|n IH]; cbn [monitor]; [apply blind_ret|].
  apply blind_bind.
  - apply blind_try_except.
    + apply blind_bind; [apply blind_loop_body|intros _; apply blind_ret].
    + blindfold.
    + intros e. blindfold.
  - intros [|]; [exact IH | apply blind_ret].
Qed.

Lemma blind_main (n : nat) (p : float) : blind (main n p).
Proof.
  unfold main.
  apply blind_bind; [apply blind_log_info|intros _].
  apply blind_bind; [apply blind_set_last|intros _].
  apply blind_monitor.
Qed.

Lemma parse_args_interval_from (argv : list Arg) (ns ns' : Namespace) :
  interval ns = interval ns' ->
  interval (fold_left
              (fun ns a =>
                 match a with
                 | ArgDebug => mkNamespace true (interval ns)
                 | ArgInterval v => mkNamespace (debug ns) v
                 end) argv ns)
  = interval (fold_left
                (fun ns a =>
                   match a with
                   | ArgDebug => mkNamespace true (interval ns)
                   | ArgInterval v => mkNamespace (debug ns) v
                   end) argv ns').
Proof.
  revert ns ns'. induction argv as [|[|v] rest IH]; intros ns ns' Heq;
    cbn [fold_left]; [assumption| |]; apply IH; cbn [interval]; congruence.
Qed.

(** X11.  The debug flag changes the diagnostic output and nothing
    else: started with and without [--debug] on the same pasteboard,
    under the same access errors, other writers and stop signal, the
    script ends the same way, with the same pasteboard content, the
    same recorded snapshot, and the same pasteboard calls, INFO and
    ERROR lines and sleeps in the same order. *)
Theorem debug_flag_changes_only_diagnostics :
  forall (n : nat) (argv : list Arg) (s : State),
    result (script n (ArgDebug :: argv) s) = result (script n argv s) /\
    pasteboard (final (script n (ArgDebug :: argv) s))
    = pasteboard (final (script n argv s)) /\
    last_snapshot (final (script n (ArgDebug :: argv) s))
    = last_snapshot (final (script n argv s)) /\
    audible (trace (final (script n (ArgDebug :: argv) s)))
    = audible (trace (final (script n argv s))).
Proof.
  intros n argv s.
  assert (Hint : interval (parse_args (ArgDebug :: argv))
                 = interval (parse_args argv))
    by (unfold parse_args; cbn [fold_left];
        apply parse_args_interval_from; reflexivity).
  assert (Hrefl : same_but_diagnostics s s) by (repeat split; reflexivity).
  assert (Hsim : forall b b' : bool,
    same_but_diagnostics
      (if b then emit (Logged DEBUG MsgDebugEnabled) (with_debug true s) else s)
      (if b' then emit (Logged DEBUG MsgDebugEnabled) (with_debug true s)
       else s)).
  { intros [|] [|];
      repeat first [ apply same_but_diagnostics_chatter_l; [reflexivity|]
                   | apply same_but_diagnostics_chatter_r; [reflexivity|] ];
      repeat split; reflexivity. }
  assert (Hrun : forall av,
    script n av s
    = main n (interval (parse_args av))
        (if debug (parse_args av)
         then emit (Logged DEBUG MsgDebugEnabled) (with_debug true s) else s)).
  { intros av. unfold script. destruct (debug (parse_args av)); reflexivity. }
  rewrite !Hrun, Hint.
  destruct (blind_main n (interval (parse_args argv)) _ _
              (Hsim (debug (parse_args argv))
                    (debug (parse_args (ArgDebug :: argv)))))
    as (Hres & Hpb & _ & _ & Hlt & Hlx & Htr).
  unfold last_snapshot. rewrite Hres, Hpb, Hlt, Hlx, Htr.
  repeat split; reflexivity.
Qed.

Lemma hushed_ret {A} (a : A) : hushed (ret a).
Proof. intros s H. now split. Qed.

Lemma hushed_bind {A B} (c : M A) (k : A -> M B) :
  hushed c -> (forall a, hushed (k a)) -> hushed (bind c k).
Proof.
  intros Hc Hk s Hs. destruct (Hc s Hs) as (Hd & Ht).
  unfold bind, final in *.
  destruct (c s) as [[a|e] s1]; cbn [snd] in *; [|now split].
  destruct (Hk a s1 Hd) as (Hd' & Ht'). unfold final in *.
  split; congruence.
Qed.

Lemma hushed_try_except_Exception {A} (body : M A) (handler : string -> M A) :
  hushed body -> (forall e, hushed (handler e)) ->
  hushed (try_except_Exception body handler).
Proof.
  intros Hb Hh s Hs. destruct (Hb s Hs) as (Hd & Ht).
  unfold try_except_Exception, final in *.
  destruct (body s) as [[a|[e|]] s1]; cbn [snd] in *; try (now split).
  destruct (Hh e s1 Hd) as (Hd' & Ht'). unfold final in *.
  split; congruence.
Qed.

Lemma hushed_try_except {A} (body on_interrupt : M A)
  (on_exception : string -> M A) :
  hushed body -> hushed on_interrupt -> (forall e, hushed (on_exception e)) ->
  hushed (try_except body on_interrupt on_exception).
Proof.
  intros Hb Hi Hh s Hs. destruct (Hb s Hs) as (Hd & Ht).
  unfold try_except, final in *.
  destruct (body s) as [[a|[e|]] s1]; cbn [snd] in *; try (now split).
  - destruct (Hh e s1 Hd) as (Hd' & Ht'). unfold final in *. split; congruence.
  - destruct (Hi s1 Hd) as (Hd' & Ht'). unfold final in *. split; congruence.
Qed.

Lemma hushed_emit {A} (a : A) (act : Action) :
  is_chatter act = false ->
  hushed (fun s => (Return a, emit act s)).
Proof.
  intros Hact s Hs. unfold final, chatter. cbn [snd emit debug_enabled trace].
  rewrite filter_app. cbn [filter]. rewrite Hact, app_nil_r. now split.
Qed.

Lemma hushed_external {A} (c : PbCall) (serve : Pasteboard -> A * Pasteboard) :
  hushed (external c serve).
Proof.
  intros s Hs. unfold external, final, chatter. cbn.
  destruct (env s) as [|[|why|content] rest]; cbn;
    try destruct (serve _); cbn; rewrite filter_app; cbn;
    rewrite app_nil_r; now split.
Qed.

Lemma hushed_external_write {A} (c : PbCall)
  (serve : Pasteboard -> A * Pasteboard) (refused : A) :
  hushed (external_write c serve refused).
Proof.
  intros s Hs. unfold external_write, final, chatter. cbn.
  destruct (env s) as [|[|why|content] rest]; cbn;
    try destruct (serve _); cbn; rewrite filter_app; cbn;
    rewrite app_nil_r; now split.
Qed.

Lemma hushed_log_debug (msg : Message) : hushed (log_debug msg).
Proof. intros s Hs. unfold log_debug, final. cbn [snd]. rewrite Hs. now split. Qed.

Lemma hushed_separator {B} (line : string) (k : M B) :
  hushed k ->
  hushed (bind log_isEnabledFor_DEBUG
            (fun dbg => bind (if dbg then print line else ret tt)
                          (fun _ => k))).
Proof.
  intros Hk s Hs. unfold bind, log_isEnabledFor_DEBUG, print, ret.
  rewrite Hs. now apply Hk.
Qed.

Lemma hushed_set_last (ty : option (list string)) (tx : option string) :
  hushed (set_last ty tx).
Proof. intros s Hs. now split. Qed.

Lemma hushed_time_sleep (secs : float) : hushed (time_sleep secs).
Proof.
  intros s Hs. unfold time_sleep, raise, final, chatter.
  destruct (sleep_rejection secs); [now split|]. cbv zeta.
  cbn [emit signals].
  destruct (signals s) as [|[|] rest]; cbn; rewrite filter_app; cbn;
    rewrite app_nil_r; now split.
Qed.

Lemma hushed_for_each {A} (l : list A) (body : A -> M unit) :
  (forall x, hushed (body x)) -> hushed (for_each l body).
Proof.
  intros Hb. induction l as [|x rest IH]; cbn [for_each].
  - apply hushed_ret.
  - apply hushed_bind; [apply Hb | intros _; exact IH].
Qed.

Lemma hushed_changed (ct : option (list string)) (cp : option string) :
  hushed (fun s =>
            (Return (negb (types_eqb ct (last_types s))
                     || negb (text_eqb cp (last_plain_text s))), s)).
Proof. intros s Hs. now split. Qed.

Ltac hush :=
  repeat first
    [ apply hushed_ret
    | apply (hushed_emit tt); reflexivity
    | apply hushed_log_debug
    | apply hushed_external
    | apply hushed_external_write
    | apply hushed_set_last
    | apply hushed_time_sleep
    | apply hushed_changed
    | apply hushed_separator
    | apply hushed_bind; [|intros ?]
    | apply hushed_try_except_Exception; [|intros ?]
    | apply hushed_try_except; [| |intros ?]
    | apply hushed_for_each; intros ?
    | match goal with
      | |- hushed (match ?x with _ => _ end) => destruct x
      end ].

Lemma hushed_loop_body (p : float) : hushed (loop_body p).
Proof.
  unfold loop_body, get_clipboard_contents, has_image_and_text,
    copy_image_only, generalPasteboard, types, stringForType_, dataForType_,
    clearContents, setData_forType_, log_info, log_error.
  apply hushed_bind; [hush|intros [ct cp]].
  apply hushed_bind; [apply hushed_changed|intros changed].
  apply hushed_bind; [|intros _; hush].
  destruct (changed && is_not_None ct); [|apply hushed_ret].
  apply hushed_separator. hush.
Qed.

Lemma hushed_monitor (n : nat) (p : float) : hushed (monitor n p).
Proof.
  induction n as [|n IH]; cbn [monitor]; [apply hushed_ret|].
  apply hushed_bind.
  - apply hushed_try_except.
    + apply hushed_bind; [apply hushed_loop_body|intros _; apply hushed_ret].
    + unfold log_info. hush.
    + intros e. unfold log_error. hush.
  - intros [|]; [exact IH | apply hushed_ret].
Qed.

Lemma parse_args_debug_from (argv : list Arg) (ns : Namespace) :
  debug ns = false ->
  ~ In ArgDebug argv ->
  debug (fold_left
           (fun ns a =>
              match a with
              | ArgDebug => mkNamespace true (interval ns)
              | ArgInterval v => mkNamespace (debug ns) v
              end) argv ns) = false.
Proof.
  revert ns. induction argv as [|[|v] rest IH]; intros ns Hns Hno;
    cbn [fold_left].
  - assumption.
  - exfalso. apply Hno. now left.
  - apply IH; [assumption|]. intros Hin. apply Hno. now right.
Qed.

(** X12.  Without [--debug] the script produces no diagnostic output
    at all, however long it runs and whatever happens: no DEBUG record
    and no separator line is added to what was there, so in particular
    the record of line 192, which carries the plain text of the
    clipboard, is never written. *)
Theorem no_diagnostics_without_debug_flag :
  forall (n : nat) (argv : list Arg) (s : State),
    ~ In ArgDebug argv ->
    debug_enabled s = false ->
    chatter (trace (final (script n argv s))) = chatter (trace s) /\
    forall text,
      In (Logged DEBUG (MsgPlainText text)) (trace (final (script n argv s))) ->
      In (Logged DEBUG (MsgPlainText text)) (trace s).
Proof.
  intros n argv s Hno Hs.
  assert (Hd : debug (parse_args argv) = false)
    by (apply parse_args_debug_from; [reflexivity | assumption]).
  assert (Hh : hushed (main n (interval (parse_args argv)))).
  { unfold main, log_info. apply hushed_bind; [hush|intros _].
    apply hushed_bind; [apply hushed_set_last|intros _].
    apply hushed_monitor. }
  assert (Hrun : script n argv s = main n (interval (parse_args argv)) s)
    by (unfold script; rewrite Hd; reflexivity).
  rewrite Hrun. destruct (Hh s Hs) as (_ & Hc). split; [assumption|].
  intros text Hin.
  assert (Hch : In (Logged DEBUG (MsgPlainText text))
                  (chatter (trace (final (main n (interval (parse_args argv)) s)))))
    by (apply filter_In; split; [assumption | reflexivity]).
  rewrite Hc in Hch. now apply filter_In in Hch.
Qed.

(** X12 on a Safari copy, three turns, with an interval option only. *)
Lemma no_diagnostics_without_debug_flag_witness :
  chatter (trace (final (script 3 [ArgInterval 2] (boot safari_copy [] []))))
  = chatter (trace (boot safari_copy [] [])).
Proof.
  apply (no_diagnostics_without_debug_flag 3 [ArgInterval 2]
           (boot safari_copy [] [])).
  - intros [H | []]. discriminate H.
  - reflexivity.
Defined.

(** ** One correction per tick at most *)

(** X13.  Whatever the environment does (other writers putting a new
    qualifying copy there again and again, access errors), the
    corrector is run at most once per turn of the loop: over [n] turns
    line 196 is logged at most [n] times, the pasteboard is asked for
    at most [2 n] times (once per read, once per run of the
    corrector), and at most [2 n] extraction calls and [2 n] clear or
    write calls are made. *)
Theorem at_most_one_correction_per_turn :
  forall (n : nat) (p : float) (s : State),
    fix_attempts (trace (final (monitor n p s))) <= fix_attempts (trace s) + n /\
    List.length (handles (trace (final (monitor n p s))))
    <= List.length (handles (trace s)) + 2 * n /\
    List.length (mutations (trace (final (monitor n p s))))
    <= List.length (mutations (trace s)) + 2 * n /\
    List.length (extractions (trace (final (monitor n p s))))
    <= List.length (extractions (trace s)) + 2 * n.
Proof.
  induction n as [|n IH]; intros p s.
  - cbn. lia.
  - destruct (read_total s) as (ct & cp & Hres & _). unfold result in Hres.
    destruct (get_clipboard_contents s) as [r s1] eqn:Eread.
    cbn [fst] in Hres. subst r.
    destruct (tick_attempts p s s1 ct cp Eread) as (Hatt & _).
    destruct (tick_calls p s s1 ct cp Eread) as (Hh & Hm & Hx).
    assert (Hle : fix_attempts (trace (final (loop_body p s)))
                  <= fix_attempts (trace s) + 1)
      by (destruct (fires s ct cp); lia).
    assert (Hlh : List.length (handles (trace (final (loop_body p s))))
                  <= List.length (handles (trace s)) + 2)
      by (rewrite Hh, length_app; destruct (fires s ct cp); cbn; lia).
    destruct (monitor_step n p s) as (s2 & Hcore & [-> | ->]).
    + destruct Hcore as (_ & _ & _ & Hatt2 & Hmut2 & Hext2 & Hh2).
      rewrite Hatt2, Hmut2, Hext2, Hh2. lia.
    + destruct Hcore as (_ & _ & _ & Hatt2 & Hmut2 & Hext2 & Hh2).
      destruct (IH p s2) as (I1 & I2 & I3 & I4).
      rewrite Hatt2, Hmut2, Hext2, Hh2 in *. lia.
Qed.
